(** * Intervuo: the interview session views of [backend/console/views.py]

    A shallow embedding of the two function views [interview_session_create]
    (session start) and [interview_session_flow] (session advance), together
    with the properties of the session state machine they implement.

    The views run against three collaborators that are modelled explicitly:
    - the relational store (orders, applicants, sessions), a record of finite
      maps, written through [save] and read through [get] / [get_or_create];
    - the language model [llm.invoke], an oracle indexed by the number of
      invocations made so far and by the prompt;
    - the interview engine [ai_interviewer], a black box acting on the session
      object and on the store.

    The two file views of the same module, [SecureFileAccessView.get] and
    [SecureAvatarAccessView.get], are embedded as well, over [os.path.join],
    the file system and the owners of the orders. *)

From Stdlib Require Import ZArith String Ascii List.
From Stdlib Require Import Decimal DecimalString.
From Stdlib Require DecimalZ DecimalPos.
From stdpp Require Import base option gmap strings list fin_maps.

Local Open Scope Z_scope.

(** ** Python values used by the views *)

(** Exceptions that can travel through the [try] blocks of the views. *)
Inductive Exn : Type :=
| OrderDoesNotExist
| ApplicantDoesNotExist
| SessionDoesNotExist
| UnboundLocalError (name : string)
| TypeError
| ExternalError (msg : string).

(** Truthiness of an optional text: [None] and the empty text are falsy. *)
Definition truthy (o : option string) : bool :=
  match o with
  | Some s => negb (String.eqb s "")
  | None => false
  end.

(** [str(x)] for an optional text, as [PromptTemplate.format] renders it. *)
Definition py_str (o : option string) : string :=
  match o with
  | Some s => s
  | None => "None"
  end.

Definition LF : string := String (ascii_of_nat 10) EmptyString.

(** [str(n)] for an integer. *)
Definition str_of_int (n : Z) : string := NilZero.string_of_int (Z.to_int n).

(** The object returned by [llm.invoke]: it may carry a [content] attribute,
    a [message] attribute, or neither. *)
Record LlmResponse : Type := mkLlmResponse {
  content : option string;
  message : option string;
  raw : string
}.

(** The [hasattr] chain applied to every model response. *)
Definition payload (response : LlmResponse) : string :=
  match content response with
  | Some c => c
  | None =>
      match message response with
      | Some m => m
      | None => raw response
      end
  end.

(** ** Requests and responses *)

Record Request : Type := mkRequest {
  user : option string;        (* e-mail of the authenticated user, if any *)
  data_email : option string;  (* request.data.get('email') *)
  data_text : option string    (* request.data.get('text') *)
}.

Section Views.

(** The numeric type of [Session.score] and [Session.confidence], and
    Python's [int] on it. *)
Variable Number : Type.
Variable py_int : Number -> Z.

(** *** Data model *)

(** Modelled from the spec: [console/models.py] is not among the sources; the
    order supplies the agent's name and its configured greeting. *)
Record Order : Type := mkOrder {
  agent_name : string;
  agent_greeting : string
}.

(** Modelled from the spec: an applicant is identified by e-mail (the key of
    the table) and holds an optional skills summary. *)
Record Applicant : Type := mkApplicant {
  skills : option string
}.

(** Modelled from the spec: the session attributes of section 3. *)
Record Session : Type := mkSession {
  ready : bool;
  n_questions : Z;
  last_question : option string;
  last_answer : option string;
  final : bool;
  score : option Number;
  confidence : option Number
}.

Definition set_ready (s : Session) (b : bool) : Session :=
  mkSession b (n_questions s) (last_question s) (last_answer s)
            (final s) (score s) (confidence s).

Definition set_last_question (s : Session) (q : option string) : Session :=
  mkSession (ready s) (n_questions s) q (last_answer s)
            (final s) (score s) (confidence s).

Definition set_last_answer (s : Session) (a : option string) : Session :=
  mkSession (ready s) (n_questions s) (last_question s) a
            (final s) (score s) (confidence s).

Definition set_skills (a : Applicant) (t : option string) : Applicant :=
  mkApplicant t.

(** Modelled from the spec: the rows [get_or_create] inserts. *)
Definition Applicant_new : Applicant := mkApplicant None.

Definition Session_new : Session :=
  mkSession false 0 None None false None None.

(** The store. Sessions are unique per (order, applicant) pair. *)
Record DB : Type := mkDB {
  orders : gmap Z Order;
  applicants : gmap string Applicant;
  sessions : gmap (Z * string) Session
}.

Inductive Body : Type :=
| Detail (d : string)
| ErrorMsg (e : string)
| ErrorOf (e : Exn)
| Turn (ai_text : string) (fin : bool) (sc conf : option Number).

Record Response : Type := mkResponse {
  status : Z;
  body : Body
}.

(** *** Collaborators *)

(** [llm.invoke]: the reply to the [i]-th invocation, on a given prompt. *)
Variable llm : nat -> string -> Exn + LlmResponse.

(** [ai_interviewer(text, session)]: it may raise, or return a score and a
    text, leaving the session object and the store as it pleases. *)
Variable ai_interviewer :
  option string -> Session -> DB -> Exn + (Number * string * Session * DB).

(** *** The world a view runs in *)

Record World : Type := mkWorld {
  db : DB;
  prompts : list string;                          (* prompts sent so far *)
  engine_calls : list (option string * Session)   (* engine invocations *)
}.

Definition M (A : Type) : Type := World -> (Exn + A) * World.

Definition ret {A} (a : A) : M A := fun w => (inr a, w).

Definition raise {A} (e : Exn) : M A := fun w => (inl e, w).

Definition bind {A B} (m : M A) (k : A -> M B) : M B := fun w =>
  match m w with
  | (inr a, w') => k a w'
  | (inl e, w') => (inl e, w')
  end.

Notation "'let*' p := m 'in' k" := (bind m (fun p => k))
  (at level 10, p pattern, m at level 100, k at level 200).
Notation "m ;;; k" := (bind m (fun _ => k))
  (at level 100, right associativity).

(** [with transaction.atomic():] the writes of the block are undone when an
    exception leaves it; what was sent to the model or the engine is not. *)
Definition atomic {A} (m : M A) : M A := fun w =>
  match m w with
  | (inl e, w') => (inl e, mkWorld (db w) (prompts w') (engine_calls w'))
  | (inr a, w') => (inr a, w')
  end.

Definition get_order (agent_id : Z) : M Order := fun w =>
  match orders (db w) !! agent_id with
  | Some o => (inr o, w)
  | None => (inl OrderDoesNotExist, w)
  end.

Definition get_applicant (email : string) : M Applicant := fun w =>
  match applicants (db w) !! email with
  | Some a => (inr a, w)
  | None => (inl ApplicantDoesNotExist, w)
  end.

Definition get_session (key : Z * string) : M Session := fun w =>
  match sessions (db w) !! key with
  | Some s => (inr s, w)
  | None => (inl SessionDoesNotExist, w)
  end.

Definition save_applicant (email : string) (a : Applicant) : M unit := fun w =>
  (inr tt,
   mkWorld (mkDB (orders (db w)) (<[email := a]> (applicants (db w)))
                 (sessions (db w)))
           (prompts w) (engine_calls w)).

Definition save_session (key : Z * string) (s : Session) : M unit := fun w =>
  (inr tt,
   mkWorld (mkDB (orders (db w)) (applicants (db w))
                 (<[key := s]> (sessions (db w))))
           (prompts w) (engine_calls w)).

Definition get_or_create_applicant (email : string) : M (Applicant * bool) :=
  fun w =>
  match applicants (db w) !! email with
  | Some a => (inr (a, false), w)
  | None => (save_applicant email Applicant_new ;;; ret (Applicant_new, true)) w
  end.

Definition get_or_create_session (key : Z * string) : M (Session * bool) :=
  fun w =>
  match sessions (db w) !! key with
  | Some s => (inr (s, false), w)
  | None => (save_session key Session_new ;;; ret (Session_new, true)) w
  end.

(** One model invocation followed by the [hasattr] chain. *)
Definition llm_text (prompt : string) : M string := fun w =>
  let w' := mkWorld (db w) (prompts w ++ [prompt]) (engine_calls w) in
  match llm (length (prompts w)) prompt with
  | inr response => (inr (payload response), w')
  | inl e => (inl e, w')
  end.

Definition call_engine (text : option string) (session : Session)
  : M (Number * string * Session) := fun w =>
  let calls := engine_calls w ++ [(text, session)] in
  match ai_interviewer text session (db w) with
  | inr (sc, ai_text, session', db') =>
      (inr (sc, ai_text, session'), mkWorld db' (prompts w) calls)
  | inl e => (inl e, mkWorld (db w) (prompts w) calls)
  end.

(** Reading a local variable that may not have been assigned. *)
Definition read_local {A} (name : string) (v : option A) : M A :=
  match v with
  | Some a => ret a
  | None => raise (UnboundLocalError name)
  end.

(** The [except] clauses shared by both views. *)
Definition error_response (e : Exn) : Response :=
  match e with
  | OrderDoesNotExist => mkResponse 404 (ErrorMsg "Order not found")
  | _ => mkResponse 500 (ErrorOf e)
  end.

Definition handle (m : M Response) : World -> Response * World := fun w =>
  match m w with
  | (inr r, w') => (r, w')
  | (inl e, w') => (error_response e, w')
  end.

(** The identity resolution both views start with. *)
Definition with_email (request : Request) (k : string -> M Response) : M Response :=
  match user request with
  | Some email => k email
  | None =>
      let user_email := data_email request in
      if negb (truthy user_email)
      then ret (mkResponse 403 (Detail "Email is missing"))
      else k (py_str user_email)
  end.

(** The e-mail a request resolves to, when it resolves to one. *)
Definition identity (request : Request) : option string :=
  match user request with
  | Some email => Some email
  | None => if truthy (data_email request) then data_email request else None
  end.

(** *** Session start *)

Definition greeting_no_question (name : string) : string :=
  "Hеllo again, I am " +:+ name +:+ ", your ai interviewer and we started a interview previously. Please describe your experience and skills related to the position you're applying for".

Definition greeting_no_answer (name : string) : string :=
  "Hi, I am " +:+ name +:+ " and we started a session. Tell me when you're ready to start with the questions?".

Definition greeting_continue (name : string) : string :=
  "Hi, I am " +:+ name +:+ " and we started a interview process. Tell me when you're ready to to continue with the questions?".

(** The [if]/[elif] chain of the existing-session path; [None] when no arm
    assigns [greeting]. *)
Definition reentry_greeting (order : Order) (session : Session) : option string :=
  if (n_questions session =? 0) && negb (truthy (last_question session))
  then Some (greeting_no_question (agent_name order))
  else if (n_questions session =? 0) && negb (truthy (last_answer session))
  then Some (greeting_no_answer (agent_name order))
  else if negb (n_questions session =? 0)
  then Some (greeting_continue (agent_name order))
  else None.

Definition interview_session_create (request : Request) (agent_id : Z)
  : World -> Response * World :=
  handle (
    let* order := get_order agent_id in
    with_email request (fun user_email =>
      atomic (
        let* (applicant, _) := get_or_create_applicant user_email in
        let* (session, session_created) := get_or_create_session (agent_id, user_email) in
        let session := set_ready session false in
        save_session (agent_id, user_email) session ;;;
        let* (greeting, session) :=
          (if session_created : bool then
             let greeting := agent_greeting order in
             let session := set_last_question session (Some greeting) in
             save_session (agent_id, user_email) session ;;;
             ret (Some greeting, session)
           else
             ret (reentry_greeting order session, session)) in
        let* greeting := read_local "greeting" greeting in
        let session := set_last_question session (Some greeting) in
        save_session (agent_id, user_email) session ;;;
        ret (mkResponse 200
               (Turn greeting (final session) (score session) (confidence session)))))).

(** *** Session advance *)

Definition stage1_text : string :=
  "We started a interview process with you, can you tell me your skills, please?".

Definition skills_prompt (text : option string) : string :=
  "Analyze the following text and determine if it mentions any skills:" +:+ LF +:+ LF
  +:+ py_str text +:+ LF +:+ LF
  +:+ "Output '0' if no skills are mentioned and '1' if skills are mentioned.".

Definition missing_skills_prompt (text : option string) : string :=
  "You are voice interviewer bot and the job applicant has not provided any skills. Analyze the following text for tone:"
  +:+ LF +:+ LF +:+ py_str text +:+ LF +:+ LF
  +:+ "Generate a polite message asking them to provide their skills again, or indicate if the text is offensive.".

Definition skills_description_prompt (text : option string) : string :=
  "Based on the following text: " +:+ LF +:+ LF +:+ py_str text +:+ LF +:+ LF
  +:+ ", generate a short description that highlights the skills mentioned. " +:+ LF
  +:+ "Provide a concise summary for what the user know and what does not know!".

Definition readiness_message_prompt : string :=
  "You are voice interviewer bot and the user just Generate a message to inform the user that their skills have been noted, and they will be asked questions based on their job description and skills. Ask them to give you information when they are ready.".

Definition ready_prompt (text : option string) : string :=
  "Analyze the following text and determine if the user mentions that is ready for starting the interview process:"
  +:+ LF +:+ LF +:+ py_str text +:+ LF +:+ LF
  +:+ "Output '0' if the user is not ready and '1' if the user is ready.".

Definition user_said_no_prompt (text : option string) : string :=
  "You are voice interviewer, and the user is not ready yet to be interviewed. Analyze the following text for tone:"
  +:+ LF +:+ LF +:+ py_str text +:+ LF +:+ LF
  +:+ "Generate a polite message that you are waiting on user to be ready to be interviewed. If the text is offensive indicate to the user to use more natural human language.".

Definition previous_context_prompt (last_question : option string) : string :=
  "You are voice interviewer. Ask the user if he is ready to continue with the interview:"
  +:+ LF +:+ LF +:+ "Last question: " +:+ py_str last_question +:+ LF +:+ LF
  +:+ "Are you ready to continue?".

Definition closing_text (n : Z) : string :=
  "Thanks for your time, we finished with the interview! Your score is "
  +:+ str_of_int n +:+ " percents. Have a good day.".

(** [int(session.score)]: a [TypeError] when the score is [None]. *)
Definition int_of_score (sc : option Number) : M Z :=
  match sc with
  | Some x => ret (py_int x)
  | None => raise TypeError
  end.

(** The body of the [with transaction.atomic():] block of the advance view:
    it yields [ai_text] and the session object the response is built from. *)
Definition flow_block (request : Request) (agent_id : Z) (user_email : string)
  : M (string * Session) :=
  let key := (agent_id, user_email) in
  let* applicant := get_applicant user_email in
  let* session := get_session key in
  let human_text := data_text request in
  if (n_questions session =? 0) && negb (truthy (last_question session)) then
    let session := set_ready session false in
    save_session key session ;;;
    ret (stage1_text, session)
  else if (n_questions session =? 0) && negb (truthy (last_answer session)) then
    let session := set_ready session false in
    save_session key session ;;;
    let* skills_provided := llm_text (skills_prompt human_text) in
    if String.eqb skills_provided "0" then
      let* missing_skills_message := llm_text (missing_skills_prompt human_text) in
      ret (missing_skills_message, session)
    else
      let* short_description := llm_text (skills_description_prompt human_text) in
      let applicant := set_skills applicant (Some short_description) in
      save_applicant user_email applicant ;;;
      let session := set_last_answer session (Some short_description) in
      save_session key session ;;;
      let* ai_text := llm_text readiness_message_prompt in
      ret (ai_text, session)
  else if (n_questions session =? 0) && truthy (last_answer session)
          && negb (ready session) then
    let* is_ready := llm_text (ready_prompt human_text) in
    if String.eqb is_ready "0" then
      let* ai_text := llm_text (user_said_no_prompt human_text) in
      ret (ai_text, session)
    else
      let session := set_ready session true in
      save_session key session ;;;
      let* (_, ai_text, session) := call_engine human_text session in
      ret (ai_text, session)
  else if negb (n_questions session =? 0) && negb (ready session) then
    let* ai_text := llm_text (previous_context_prompt (last_question session)) in
    ret (ai_text, session)
  else
    let* (_, ai_text, session) := call_engine human_text session in
    if final session then
      let* n := int_of_score (score session) in
      ret (closing_text n, session)
    else
      ret (ai_text, session).

(** The [try:] body of the advance view. *)
Definition flow_try (request : Request) (agent_id : Z) : M Response :=
  let* order := get_order agent_id in
  with_email request (fun user_email =>
    let* (ai_text, session) := atomic (flow_block request agent_id user_email) in
    ret (mkResponse 200
           (Turn ai_text (final session) (score session) (confidence session)))).

Definition interview_session_flow (request : Request) (agent_id : Z)
  : World -> Response * World :=
  handle (flow_try request agent_id).

(** *** Observing a turn

    What a turn did is read off the prompts it sent to the model and the
    invocations of the engine it made. *)

(** The classifying prompt of stages 2 and 3, and the generation prompt of
    their "no" arms (the re-ask and the please-be-ready message). *)
Definition classifier_prompt (s : Session) (text : option string) : string :=
  if truthy (last_answer s) then ready_prompt text else skills_prompt text.

Definition no_arm_prompt (s : Session) (text : option string) : string :=
  if truthy (last_answer s) then user_said_no_prompt text
  else missing_skills_prompt text.

(** The turn from [w] to [w'] took the "no" arm: after classifying it asked
    the model for the re-ask (stage 2) or the please-be-ready message
    (stage 3) and nothing else, and left the engine alone. *)
Definition took_no_arm (w w' : World) (s : Session) (text : option string) : Prop :=
  prompts w' = prompts w ++ [classifier_prompt s text; no_arm_prompt s text] /\
  engine_calls w' = engine_calls w.

(** The turn took the "yes" arm: in stage 2 the prompt after the classifying
    one asks for the skills summary; in stage 3 no further prompt is sent and
    the engine is invoked once, on the session with [ready = True]. *)
Definition took_yes_arm (w w' : World) (s : Session) (text : option string) : Prop :=
  if truthy (last_answer s)
  then prompts w' = prompts w ++ [classifier_prompt s text] /\
       engine_calls w' = engine_calls w ++ [(text, set_ready s true)]
  else (exists rest,
          prompts w' = prompts w ++ classifier_prompt s text
                         :: skills_description_prompt text :: rest) /\
       engine_calls w' = engine_calls w.

(** Some model invocation made between [w] and [w'] raised [e]. *)
Definition llm_failed (w w' : World) (e : Exn) : Prop :=
  exists i p, (length (prompts w) <= i)%nat /\
              prompts w' !! i = Some p /\
              llm i p = inl e.

(** A computation reports the model's failures: it only appends to the log
    of prompts, and an invocation that raised [e] while it ran makes the
    computation raise [e]. *)
Definition reports_llm_failure {A} (m : M A) : Prop :=
  forall w,
    (exists sent, prompts (snd (m w)) = prompts w ++ sent) /\
    (forall e, llm_failed w (snd (m w)) e -> fst (m w) = inl e).

End Views.

Arguments mkSession {Number}.
Arguments ready {Number}.
Arguments n_questions {Number}.
Arguments last_question {Number}.
Arguments last_answer {Number}.
Arguments final {Number}.
Arguments score {Number}.
Arguments confidence {Number}.
Arguments set_ready {Number}.
Arguments set_last_question {Number}.
Arguments set_last_answer {Number}.
Arguments Session_new {Number}.
Arguments mkDB {Number}.
Arguments orders {Number}.
Arguments applicants {Number}.
Arguments sessions {Number}.
Arguments mkWorld {Number}.
Arguments db {Number}.
Arguments prompts {Number}.
Arguments engine_calls {Number}.
Arguments mkResponse {Number}.
Arguments status {Number}.
Arguments body {Number}.
Arguments Turn {Number}.
Arguments Detail {Number}.
Arguments ErrorMsg {Number}.
Arguments ErrorOf {Number}.
Arguments error_response {Number}.
Arguments ret {Number A}.
Arguments raise {Number A}.
Arguments bind {Number A B}.
Arguments atomic {Number A}.
Arguments handle {Number}.
Arguments with_email {Number}.
Arguments get_order {Number}.
Arguments get_applicant {Number}.
Arguments get_session {Number}.
Arguments save_applicant {Number}.
Arguments save_session {Number}.
Arguments get_or_create_applicant {Number}.
Arguments get_or_create_session {Number}.
Arguments llm_text {Number}.
Arguments call_engine {Number}.
Arguments read_local {Number A}.
Arguments int_of_score {Number}.
Arguments flow_block {Number}.
Arguments flow_try {Number}.
Arguments reentry_greeting {Number}.
Arguments classifier_prompt {Number}.
Arguments no_arm_prompt {Number}.
Arguments took_no_arm {Number}.
Arguments took_yes_arm {Number}.
Arguments llm_failed {Number}.
Arguments reports_llm_failure {Number} llm {A}.
Arguments interview_session_create {Number}.
Arguments interview_session_flow {Number}.

(** ** The file views

    [SecureFileAccessView.get] and [SecureAvatarAccessView.get] serve a file
    stored for an order to the customer the order belongs to. *)

(** [b.startswith('/')] and [path.endswith('/')]. *)
Definition starts_with_sep (b : string) : bool :=
  match b with
  | String c _ => Ascii.eqb c "/"
  | EmptyString => false
  end.

Fixpoint ends_with_sep (path : string) : bool :=
  match path with
  | EmptyString => false
  | String c rest =>
      match rest with
      | EmptyString => Ascii.eqb c "/"
      | String _ _ => ends_with_sep rest
      end
  end.

(** One round of the loop of [posixpath.join]: a component that starts with
    the separator replaces the path built so far. *)
Definition join_step (path b : string) : string :=
  if starts_with_sep b then b
  else if String.eqb path "" || ends_with_sep path then path +:+ b
  else path +:+ "/" +:+ b.

(** [os.path.join(a, *p)]. *)
Definition os_path_join (a : string) (p : list string) : string :=
  fold_left join_step p a.

(** The f-string [f"{order_id}__{filename}"]. *)
Definition stored_name (order_id : Z) (filename : string) : string :=
  str_of_int order_id +:+ "__" +:+ filename.

(** No character of [s] is [c]. *)
Fixpoint free_of (c : ascii) (s : string) : bool :=
  match s with
  | EmptyString => true
  | String c' rest => negb (Ascii.eqb c' c) && free_of c rest
  end.

(** What a file view ends with: a JSON response, the streamed content of a
    file, or an exception that leaves the view (it has no handler for what
    [open] raises). *)
Inductive FileOutcome : Type :=
| Json (status : Z) (detail : string)
| Stream (content : string)
| Raised (e : Exn).

Section FileViews.

(** [settings.MEDIA_ROOT], [os.path.exists] and [open(path, 'rb')]. *)
Variable MEDIA_ROOT : string.
Variable path_exists : string -> bool.
Variable open_rb : string -> Exn + string.

(** The orders with the user of their customer: what the query
    [Order.objects.get(id=order_id, customer__user_id=request.user.id)]
    reads. An order without a row here has no customer user. *)
Variable customer_user : gmap Z Z.

Definition file_path (folder : string) (order_id : Z) (filename : string)
  : string :=
  os_path_join MEDIA_ROOT [folder; stored_name order_id filename].

(** The body shared by the two views, which differ in the folder only. *)
Definition secure_get (folder : string) (user_id order_id : Z)
    (filename : string) : FileOutcome :=
  match customer_user !! order_id with
  | Some owner =>
      if owner =? user_id then
        let path := file_path folder order_id filename in
        if negb (path_exists path)
        then Json 404 "File Not found"
        else match open_rb path with
             | inr content => Stream content
             | inl e => Raised e
             end
      else Json 403 "You don't have permission to access this file"
  | None => Json 403 "You don't have permission to access this file"
  end.

Definition SecureFileAccessView_get : Z -> Z -> string -> FileOutcome :=
  secure_get "files".

Definition SecureAvatarAccessView_get : Z -> Z -> string -> FileOutcome :=
  secure_get "avatars".

End FileViews.

(** ** A concrete instance, used to run the views *)

Module Run.

Definition order1 : Order := mkOrder "Ann" "Welcome, tell me about your skills".

Definition db0 : DB Z :=
  mkDB {[ 1 := order1 ]} ∅ ∅.

Definition world_of (d : DB Z) : World Z := mkWorld d [] [].

Definition no_llm : nat -> string -> Exn + LlmResponse :=
  fun _ _ => inl (ExternalError "model unavailable").

Definition no_engine : option string -> Session Z -> DB Z ->
    Exn + (Z * string * Session Z * DB Z) :=
  fun _ _ _ => inl (ExternalError "engine unavailable").

Definition anon (email : option string) (text : option string) : Request :=
  mkRequest None email text.

Definition bob : string := "bob@x.org".

(** A model whose successive replies are scripted. *)
Definition says (text : string) : Exn + LlmResponse :=
  inr (mkLlmResponse (Some text) None "").

Definition script (replies : list (Exn + LlmResponse))
  : nat -> string -> Exn + LlmResponse :=
  fun i _ => nth i replies (inl (ExternalError "model unavailable")).

(** An engine for the session stored under [key]: it counts the question,
    poses the next one, and closes the interview after the fifth with ten
    points per question counted. *)
Definition counting_engine (key : Z * string)
  : option string -> Session Z -> DB Z -> Exn + (Z * string * Session Z * DB Z) :=
  fun _ s d =>
    let n := n_questions s + 1 in
    let s' :=
      if 5 <=? n
      then mkSession (ready s) n (Some "Last question") (last_answer s)
                     true (Some (10 * n)) (Some 1)
      else mkSession (ready s) n (Some "Next question") (last_answer s)
                     (final s) (score s) (confidence s) in
    inr (10 * n, "Next question", s',
         mkDB (orders d) (applicants d) (<[key := s']> (sessions d))).

(** Stored sessions at the stages a turn can find them in. *)
Definition fresh_session : Session Z :=
  mkSession true 0 None None false None None.

Definition greeted_session : Session Z :=
  mkSession false 0 (Some "Welcome, tell me about your skills") None
            false None None.

Definition skilled_session : Session Z :=
  mkSession false 0 (Some "Welcome, tell me about your skills")
            (Some "Knows Python and SQL") false None None.

Definition paused_session : Session Z :=
  mkSession false 2 (Some "Next question") (Some "Knows Python and SQL")
            false None None.

Definition final_session : Session Z :=
  mkSession true 5 (Some "Last question") (Some "Knows Python and SQL")
            true (Some 50) (Some 1).

Definition final_paused_session : Session Z :=
  mkSession false 5 (Some "Last question") (Some "Knows Python and SQL")
            true (Some 50) (Some 1).

Definition db_with (s : Session Z) : DB Z :=
  mkDB {[ 1 := order1 ]} {[ bob := mkApplicant None ]} {[ (1, bob) := s ]}.

Definition world_with (s : Session Z) : World Z := world_of (db_with s).

(** Bob, unauthenticated, sending [text]. *)
Definition bob_says (text : string) : Request := anon (Some bob) (Some text).

Definition bob_starts : Request := anon (Some bob) None.

(** Scores are integers in this instance, and [int] leaves them alone. *)
Definition int_id (n : Z) : Z := n.

Definition verbose : string :=
  "Yes, the text mentions skills such as Python and SQL.".

Definition summary : string := "Knows Python and SQL".

Definition noted : string :=
  "Your skills are noted. Tell me when you are ready.".

Definition model_yes : nat -> string -> Exn + LlmResponse :=
  script [says "1"; says summary; says noted].

Definition model_no : nat -> string -> Exn + LlmResponse :=
  script [says "0"; says "Could you tell me about your skills?"].

Definition model_verbose : nat -> string -> Exn + LlmResponse :=
  script [says verbose; says summary; says noted].

Definition model_timeout : nat -> string -> Exn + LlmResponse :=
  script [says "1"; says summary; inl (ExternalError "timeout")].

Definition model_continue : nat -> string -> Exn + LlmResponse :=
  script [says "Are you ready to continue?"].

Definition engine : option string -> Session Z -> DB Z ->
    Exn + (Z * string * Session Z * DB Z) :=
  counting_engine (1, bob).

End Run.

(** A media folder holding one knowledge file and one avatar of order 1,
    which belongs to the customer of user 7. *)
Module RunFiles.

Definition root : string := "/srv/media".

Definition disk : gmap string string :=
  {[ "/srv/media/files/1__cv.pdf" := "%PDF";
     "/srv/media/avatars/1__ann.png" := "PNG" ]}.

Definition disk_exists (path : string) : bool := bool_decide (is_Some (disk !! path)).

Definition disk_open (path : string) : Exn + string :=
  match disk !! path with
  | Some content => inr content
  | None => inl (ExternalError "No such file or directory")
  end.

Definition owners : gmap Z Z := {[ 1 := 7 ]}.

End RunFiles.

(** ** Properties of the views *)

Lemma world_eta {Number} (w : World Number) :
  mkWorld (db w) (prompts w) (engine_calls w) = w.
Proof. by destruct w. Qed.

Lemma with_email_identity {Number} (request : Request) (email : string)
    (k : string -> M Number (Response Number)) :
  identity request = Some email -> with_email request k = k email.
Proof.
  unfold identity, with_email.
  destruct (user request) as [u|]; [by intros [= ->]|].
  destruct (data_email request) as [e|]; simpl; [|done].
  destruct (negb (String.eqb e "")); simpl; [by intros [= ->]|done].
Qed.

Lemma with_email_anonymous {Number} (request : Request)
    (k : string -> M Number (Response Number)) :
  user request = None -> truthy (data_email request) = false ->
  with_email request k = ret (mkResponse 403 (Detail "Email is missing")).
Proof. unfold with_email. by intros -> ->. Qed.

Section StartSession.

Context {Number : Type}.
Implicit Types (w : World Number) (s : Session Number) (request : Request).

(** C8 (as amended): an unauthenticated start request that carries no e-mail
    creates no applicant and no session row; on an existing order it is
    answered 403 with detail "Email is missing", on an unknown order 404 with
    "Order not found". *)
Theorem create_email_missing request agent_id w :
  user request = None ->
  data_email request = None ->
  interview_session_create request agent_id w =
    (match orders (db w) !! agent_id with
     | Some _ => mkResponse 403 (Detail "Email is missing")
     | None => mkResponse 404 (ErrorMsg "Order not found")
     end, w).
Proof.
  intros Huser Hemail.
  unfold interview_session_create, handle, bind, get_order.
  destruct (orders (db w) !! agent_id) as [order|]; [|done].
  rewrite with_email_anonymous; [done..|by rewrite Hemail].
Qed.

(** C5 (as amended): a start request on a session with [n_questions = 0] and
    no [last_question] stores [ready = False] whatever [ready] was before; it
    stores the order's configured greeting in [last_question] when the session
    is newly created, and the fixed "Hello again" text carrying the agent's
    name when the session existed already. *)
Theorem create_first_greeting request agent_id email w order :
  orders (db w) !! agent_id = Some order ->
  identity request = Some email ->
  (forall s, sessions (db w) !! (agent_id, email) = Some s ->
             n_questions s = 0 /\ last_question s = None) ->
  let greeting :=
    match sessions (db w) !! (agent_id, email) with
    | None => agent_greeting order
    | Some _ => greeting_no_question (agent_name order)
    end in
  let out := interview_session_create request agent_id w in
  exists s', sessions (db (snd out)) !! (agent_id, email) = Some s' /\
             last_question s' = Some greeting /\
             ready s' = false /\
             status (fst out) = 200.
Proof.
  intros Horder Hid Hfresh greeting out. subst greeting out.
  unfold interview_session_create, handle, bind, get_order.
  rewrite Horder, (with_email_identity _ _ _ Hid).
  unfold atomic, bind, get_or_create_applicant, get_or_create_session.
  destruct (applicants (db w) !! email) as [a|]; simpl;
    (destruct (sessions (db w) !! (agent_id, email)) as [s|] eqn:Hs; simpl;
     [ destruct (Hfresh s eq_refl) as [Hn Hq];
       unfold reentry_greeting; simpl; rewrite Hn, Hq; simpl
     | ];
     eexists; (split; [apply lookup_insert_eq|]); done).
Qed.

(** C3, what the code does: on an existing session with no question counted
    and both [last_question] and [last_answer] set, no arm of the greeting
    chain assigns [greeting]; reading it raises, the request is answered 500
    and the transaction is rolled back. *)
Theorem create_greeting_unbound request agent_id email w order a s :
  orders (db w) !! agent_id = Some order ->
  identity request = Some email ->
  applicants (db w) !! email = Some a ->
  sessions (db w) !! (agent_id, email) = Some s ->
  n_questions s = 0 ->
  truthy (last_question s) = true ->
  truthy (last_answer s) = true ->
  interview_session_create request agent_id w =
    (mkResponse 500 (ErrorOf (UnboundLocalError "greeting")), w).
Proof.
  intros Horder Hid Ha Hs Hn Hq Hans.
  unfold interview_session_create, handle, bind, get_order.
  rewrite Horder, (with_email_identity _ _ _ Hid).
  unfold atomic, bind, get_or_create_applicant, get_or_create_session.
  rewrite Ha, Hs. simpl.
  unfold reentry_greeting. simpl. rewrite Hn, Hq, Hans. simpl.
  by rewrite world_eta.
Qed.

End StartSession.

(** C8, the claim as stated fails: on an unknown order the same request is
    answered 404, not 403. *)
Lemma create_email_missing_unknown_order :
  user (Run.anon None None) = None /\
  data_email (Run.anon None None) = None /\
  status (fst (interview_session_create (Run.anon None None) 2
                 (Run.world_of Run.db0))) = 404.
Proof. by vm_compute. Qed.

(** C5, the claim as stated fails: an existing session with no question asked
    and no [last_question] does not get the configured greeting. *)
Lemma create_existing_not_configured_greeting :
  n_questions Run.fresh_session = 0 /\
  last_question Run.fresh_session = None /\
  (last_question <$>
     sessions (db (snd (interview_session_create Run.bob_starts 1
                          (Run.world_with Run.fresh_session))))
       !! (1, Run.bob)) =
    Some (Some (greeting_no_question "Ann")) /\
  greeting_no_question "Ann" <> agent_greeting Run.order1.
Proof. by vm_compute. Qed.

Lemma create_email_missing_run :
  interview_session_create (Run.anon None None) 1 (Run.world_of Run.db0) =
    (mkResponse 403 (Detail "Email is missing"), Run.world_of Run.db0).
Proof.
  exact (create_email_missing (Run.anon None None) 1 (Run.world_of Run.db0)
           eq_refl eq_refl).
Defined.

Lemma create_first_greeting_run :
  exists s', sessions (db (snd (interview_session_create Run.bob_starts 1
                                  (Run.world_of Run.db0))))
               !! (1, Run.bob) = Some s' /\
             last_question s' = Some (agent_greeting Run.order1) /\
             ready s' = false /\
             status (fst (interview_session_create Run.bob_starts 1
                            (Run.world_of Run.db0))) = 200.
Proof.
  apply (create_first_greeting Run.bob_starts 1 Run.bob (Run.world_of Run.db0)
           Run.order1); [by vm_compute | by vm_compute |].
  intros s Hs. by vm_compute in Hs.
Defined.

Lemma create_greeting_unbound_run :
  interview_session_create Run.bob_starts 1 (Run.world_with Run.skilled_session) =
    (mkResponse 500 (ErrorOf (UnboundLocalError "greeting")),
     Run.world_with Run.skilled_session).
Proof.
  apply (create_greeting_unbound Run.bob_starts 1 Run.bob _
           Run.order1 (mkApplicant None) Run.skilled_session); by vm_compute.
Defined.

Section AdvanceSession.

Context {Number : Type}.
Variable py_int : Number -> Z.
Variable llm : nat -> string -> Exn + LlmResponse.
Variable ai_interviewer :
  option string -> Session Number -> DB Number ->
  Exn + (Number * string * Session Number * DB Number).

Implicit Types (w : World Number) (s : Session Number) (request : Request).

Local Abbreviation view := (interview_session_flow py_int llm ai_interviewer).
Local Abbreviation block := (flow_block py_int llm ai_interviewer).

Local Arguments truthy : simpl never.
Local Arguments String.eqb : simpl never.
Local Arguments skills_prompt : simpl never.
Local Arguments missing_skills_prompt : simpl never.
Local Arguments skills_description_prompt : simpl never.
Local Arguments readiness_message_prompt : simpl never.
Local Arguments ready_prompt : simpl never.
Local Arguments user_said_no_prompt : simpl never.
Local Arguments previous_context_prompt : simpl never.
Local Arguments closing_text : simpl never.
Local Arguments error_response : simpl never.

(** The advance view, once the order and the e-mail are resolved: the
    response is built from what the atomic block yields, and an exception
    leaving the block restores the store. *)
Lemma flow_resolved request agent_id email w order :
  orders (db w) !! agent_id = Some order ->
  identity request = Some email ->
  interview_session_flow py_int llm ai_interviewer request agent_id w =
    match block request agent_id email w with
    | (inr (ai_text, session), w') =>
        (mkResponse 200
           (Turn ai_text (final session) (score session) (confidence session)), w')
    | (inl e, w') =>
        (error_response e, mkWorld (db w) (prompts w') (engine_calls w'))
    end.
Proof.
  intros Horder Hid.
  unfold interview_session_flow, handle, flow_try, bind, get_order.
  rewrite Horder, (with_email_identity _ _ _ Hid).
  unfold atomic.
  by destruct (flow_block _ _ _ _ _ _ _) as [[e|[ai_text session]] w'].
Qed.

Lemma status_error_response (e : Exn) :
  status (error_response (Number := Number) e) <> 200.
Proof. by destruct e. Qed.

(** C2, what the code does: when the applicant row or the session row is
    missing, the lookup raises inside the atomic block, the generic handler
    answers 500 (not 404), and nothing is created. *)
Theorem flow_missing_record request agent_id email w order :
  orders (db w) !! agent_id = Some order ->
  identity request = Some email ->
  applicants (db w) !! email = None \/
  sessions (db w) !! (agent_id, email) = None ->
  exists e, (e = ApplicantDoesNotExist \/ e = SessionDoesNotExist) /\
            interview_session_flow py_int llm ai_interviewer request agent_id w
              = (mkResponse 500 (ErrorOf e), w).
Proof.
  intros Horder Hid Hmissing.
  rewrite (flow_resolved _ _ _ _ _ Horder Hid).
  unfold flow_block, bind, get_applicant, get_session.
  destruct (applicants (db w) !! email) as [a|] eqn:Ha.
  - destruct Hmissing as [|Hs]; [done|]. rewrite Hs.
    exists SessionDoesNotExist. rewrite world_eta. auto.
  - exists ApplicantDoesNotExist. rewrite world_eta. auto.
Qed.

(** Running the view on a world where both rows are present: [H] is the
    equation defining the outcome. *)
Ltac enter_block H Horder Hid Ha Hs :=
  rewrite (flow_resolved _ _ _ _ _ Horder Hid) in H;
  unfold flow_block, bind, get_applicant, get_session in H;
  rewrite Ha, Hs in H; simpl in H.

Ltac step_llm H := unfold llm_text at 1 in H; simpl in H.

(** C6 (as amended): in stage 2 (no question counted, [last_question] set, no
    [last_answer]), when the classifier answers "1" and the turn is answered
    200 (the summary and the readiness message are both generated),
    [applicant.skills] and [session.last_answer] both hold the summary the
    model generated, and the stored session has [ready = False]. *)
Theorem flow_skills_noted request agent_id email w order a s r :
  orders (db w) !! agent_id = Some order ->
  identity request = Some email ->
  applicants (db w) !! email = Some a ->
  sessions (db w) !! (agent_id, email) = Some s ->
  n_questions s = 0 ->
  truthy (last_question s) = true ->
  truthy (last_answer s) = false ->
  llm (length (prompts w)) (skills_prompt (data_text request)) = inr r ->
  payload r = "1" ->
  status (fst (interview_session_flow py_int llm ai_interviewer request agent_id w))
    = 200 ->
  exists summary a' s',
    llm (length (prompts w ++ [skills_prompt (data_text request)]))
        (skills_description_prompt (data_text request)) = inr summary /\
    applicants
      (db (snd (interview_session_flow py_int llm ai_interviewer request agent_id w)))
      !! email = Some a' /\
    skills a' = Some (payload summary) /\
    sessions
      (db (snd (interview_session_flow py_int llm ai_interviewer request agent_id w)))
      !! (agent_id, email) = Some s' /\
    last_answer s' = Some (payload summary) /\
    ready s' = false.
Proof.
  intros Horder Hid Ha Hs Hn Hq Hans Hllm Hone.
  destruct (view request agent_id w) as [resp w'] eqn:Hflow. simpl.
  enter_block Hflow Horder Hid Ha Hs.
  rewrite Hn, Hq, Hans in Hflow. simpl in Hflow.
  step_llm Hflow. rewrite Hllm, Hone in Hflow. simpl in Hflow.
  step_llm Hflow.
  destruct (llm _ (skills_description_prompt _)) as [e|summary] eqn:Hsum;
    simpl in Hflow;
    [injection Hflow as <- <-; intros Hst; by apply status_error_response in Hst|].
  step_llm Hflow.
  destruct (llm _ readiness_message_prompt) as [e|r2]; simpl in Hflow;
    injection Hflow as <- <-;
    [intros Hst; by apply status_error_response in Hst|].
  intros _. exists summary. eexists _, _. simpl.
  split; [done|]. split; [apply lookup_insert_eq|]. split; [done|].
  split; [apply lookup_insert_eq|]. done.
Qed.

(** C7: in stage 3 (no question counted, [last_question] and [last_answer]
    set, not ready), when the classifier answers "1" the view saves the
    session with [ready = True] and invokes the engine exactly once, on that
    session and on the store holding it; the outcome of the turn is the
    engine's. *)
Theorem flow_ready_engine_once request agent_id email w order a s r :
  orders (db w) !! agent_id = Some order ->
  identity request = Some email ->
  applicants (db w) !! email = Some a ->
  sessions (db w) !! (agent_id, email) = Some s ->
  n_questions s = 0 ->
  truthy (last_question s) = true ->
  truthy (last_answer s) = true ->
  ready s = false ->
  llm (length (prompts w)) (ready_prompt (data_text request)) = inr r ->
  payload r = "1" ->
  let text := data_text request in
  let s1 := set_ready s true in
  let d1 := mkDB (orders (db w)) (applicants (db w))
                 (<[(agent_id, email) := s1]> (sessions (db w))) in
  let sent := prompts w ++ [ready_prompt text] in
  let calls := engine_calls w ++ [(text, s1)] in
  ready s1 = true /\
  sessions d1 !! (agent_id, email) = Some s1 /\
  engine_calls
    (snd (interview_session_flow py_int llm ai_interviewer request agent_id w)) = calls /\
  interview_session_flow py_int llm ai_interviewer request agent_id w =
    match ai_interviewer text s1 d1 with
    | inr (_, ai_text, s', d') =>
        (mkResponse 200 (Turn ai_text (final s') (score s') (confidence s')),
         mkWorld d' sent calls)
    | inl e => (error_response e, mkWorld (db w) sent calls)
    end.
Proof.
  intros Horder Hid Ha Hs Hn Hq Hans Hready Hllm Hone text s1 d1 sent calls.
  split; [done|]. split; [apply lookup_insert_eq|].
  destruct (view request agent_id w) as [resp w'] eqn:Hflow. simpl.
  enter_block Hflow Horder Hid Ha Hs.
  rewrite Hn, Hq, Hans, Hready in Hflow. simpl in Hflow.
  step_llm Hflow. rewrite Hllm, Hone in Hflow. simpl in Hflow.
  unfold call_engine in Hflow. simpl in Hflow.
  fold text s1 d1 sent calls in Hflow.
  destruct (ai_interviewer text s1 d1) as [e|[[[sc ai_text] s'] d']];
    simpl in Hflow; by injection Hflow as <- <-.
Qed.

(** C1 (as amended): in a classifying stage (stage 2 or stage 3) the "no" arm
    is taken exactly when the classifier's text is the literal "0"; any other
    text, "1" or a whole sentence, takes the "yes" arm. *)
Theorem flow_classifier_arms request agent_id email w order a s r :
  orders (db w) !! agent_id = Some order ->
  identity request = Some email ->
  applicants (db w) !! email = Some a ->
  sessions (db w) !! (agent_id, email) = Some s ->
  n_questions s = 0 ->
  truthy (last_question s) = true ->
  (truthy (last_answer s) = true -> ready s = false) ->
  llm (length (prompts w)) (classifier_prompt s (data_text request)) = inr r ->
  (payload r = "0" ->
   took_no_arm w
     (snd (interview_session_flow py_int llm ai_interviewer request agent_id w))
     s (data_text request)) /\
  (payload r <> "0" ->
   took_yes_arm w
     (snd (interview_session_flow py_int llm ai_interviewer request agent_id w))
     s (data_text request)).
Proof.
  intros Horder Hid Ha Hs Hn Hq Hstage Hllm.
  unfold took_no_arm, took_yes_arm, classifier_prompt, no_arm_prompt in *.
  destruct (view request agent_id w) as [resp w'] eqn:Hflow. simpl.
  enter_block Hflow Horder Hid Ha Hs.
  rewrite Hn, Hq in Hflow. simpl in Hflow.
  destruct (truthy (last_answer s)) eqn:Hans; simpl in Hflow.
  - rewrite (Hstage eq_refl) in Hflow. simpl in Hflow.
    step_llm Hflow. rewrite Hllm in Hflow. simpl in Hflow.
    split; intros Hout.
    + rewrite Hout in Hflow. simpl in Hflow.
      step_llm Hflow.
      destruct (llm _ (user_said_no_prompt _)) as [e|r2]; simpl in Hflow;
        injection Hflow as <- <-; simpl; by rewrite <- app_assoc.
    + apply String.eqb_neq in Hout. rewrite Hout in Hflow.
      unfold call_engine in Hflow. simpl in Hflow.
      destruct (ai_interviewer _ _ _) as [e|[[[sc ai_text] s'] d']];
        simpl in Hflow; by injection Hflow as <- <-.
  - step_llm Hflow. rewrite Hllm in Hflow. simpl in Hflow.
    split; intros Hout.
    + rewrite Hout in Hflow. simpl in Hflow.
      step_llm Hflow.
      destruct (llm _ (missing_skills_prompt _)) as [e|r2]; simpl in Hflow;
        injection Hflow as <- <-; simpl; by rewrite <- app_assoc.
    + apply String.eqb_neq in Hout. rewrite Hout in Hflow.
      step_llm Hflow.
      destruct (llm _ (skills_description_prompt _)) as [e|r1]; simpl in Hflow.
      { injection Hflow as <- <-. simpl. split; [|done].
        exists []. by rewrite <- app_assoc. }
      step_llm Hflow.
      destruct (llm _ readiness_message_prompt) as [e|r2]; simpl in Hflow;
        injection Hflow as <- <-; simpl; (split; [|done]);
        exists [readiness_message_prompt]; by rewrite <- !app_assoc.
Qed.

(** *** Failures of the model *)

Lemma reports_silent {A} (m : M Number A) :
  (forall w, prompts (snd (m w)) = prompts w) -> reports_llm_failure llm m.
Proof.
  intros Hm w. split.
  - exists []. by rewrite Hm, app_nil_r.
  - intros e (i & p & Hi & Hp & _). rewrite Hm in Hp.
    apply lookup_lt_Some in Hp. lia.
Qed.

Lemma reports_ret {A} (x : A) :
  reports_llm_failure (Number := Number) llm (ret x).
Proof. by apply reports_silent. Qed.

Lemma reports_raise {A} (e : Exn) :
  reports_llm_failure (Number := Number) llm (raise (A := A) e).
Proof. by apply reports_silent. Qed.

Lemma reports_get_applicant email :
  reports_llm_failure (Number := Number) llm (get_applicant email).
Proof.
  apply reports_silent. intros w. unfold get_applicant. by destruct (_ !! _).
Qed.

Lemma reports_get_session key :
  reports_llm_failure (Number := Number) llm (get_session key).
Proof.
  apply reports_silent. intros w. unfold get_session. by destruct (_ !! _).
Qed.

Lemma reports_get_order agent_id :
  reports_llm_failure (Number := Number) llm (get_order agent_id).
Proof.
  apply reports_silent. intros w. unfold get_order. by destruct (_ !! _).
Qed.

Lemma reports_save_session key s : reports_llm_failure llm (save_session key s).
Proof. by apply reports_silent. Qed.

Lemma reports_save_applicant email a :
  reports_llm_failure (Number := Number) llm (save_applicant email a).
Proof. by apply reports_silent. Qed.

Lemma reports_int_of_score sc : reports_llm_failure llm (int_of_score py_int sc).
Proof. apply reports_silent. intros w. by destruct sc. Qed.

Lemma reports_call_engine text s :
  reports_llm_failure llm (call_engine ai_interviewer text s).
Proof.
  apply reports_silent. intros w. unfold call_engine.
  by destruct (ai_interviewer _ _ _) as [e|[[[sc ai_text] s'] d']].
Qed.

Lemma reports_llm_text prompt :
  reports_llm_failure (Number := Number) llm (llm_text llm prompt).
Proof.
  intros w. split.
  - exists [prompt]. unfold llm_text. by destruct (llm _ _).
  - intros e (i & p & Hi & Hp & He).
    assert (prompts (snd (llm_text llm prompt w)) = prompts w ++ [prompt])
      as Hsent
      by (unfold llm_text; by destruct (llm (length (prompts w)) prompt)).
    rewrite Hsent in Hp. rewrite lookup_app_r in Hp by done.
    destruct (i - length (prompts w))%nat as [|j] eqn:Hj; [|by destruct j].
    injection Hp as <-.
    replace i with (length (prompts w)) in He by lia.
    unfold llm_text. by rewrite He.
Qed.

Lemma reports_bind {A B} (m : M Number A) (k : A -> M Number B) :
  reports_llm_failure llm m ->
  (forall x, reports_llm_failure llm (k x)) ->
  reports_llm_failure llm (bind m k).
Proof.
  intros Hm Hk w. unfold bind.
  destruct (Hm w) as [[sent1 Hsent1] Hfail1].
  destruct (m w) as [[e1|x] w1] eqn:Hmw; simpl in *.
  - split; [by exists sent1|]. intros e He.
    apply Hfail1 in He. by injection He as ->.
  - destruct (Hk x w1) as [[sent2 Hsent2] Hfail2].
    split.
    + exists (sent1 ++ sent2). by rewrite Hsent2, Hsent1, app_assoc.
    + intros e (i & p & Hi & Hp & He).
      destruct (decide (i < length (prompts w1))%nat) as [Hlt|Hge].
      * assert (inr x = inl e) as Habs; [|done].
        apply Hfail1. exists i, p. split; [done|]. split; [|done].
        rewrite Hsent2 in Hp. by rewrite lookup_app_l in Hp.
      * apply Hfail2. exists i, p. split; [lia|done].
Qed.

Lemma reports_atomic {A} (m : M Number A) :
  reports_llm_failure llm m -> reports_llm_failure llm (atomic m).
Proof.
  intros Hm w. unfold atomic.
  destruct (Hm w) as [Hsent Hfail].
  destruct (m w) as [[e1|x] w1]; simpl in *; by split.
Qed.

Ltac reports_step :=
  first
    [ apply reports_ret | apply reports_raise
    | apply reports_get_applicant | apply reports_get_session
    | apply reports_get_order
    | apply reports_save_session | apply reports_save_applicant
    | apply reports_int_of_score | apply reports_call_engine
    | apply reports_llm_text | apply reports_atomic
    | apply reports_bind; [|intros ?]
    | match goal with
      | |- reports_llm_failure _ (if ?b then _ else _) => destruct b
      | |- reports_llm_failure _ (let (_, _) := ?x in _) => destruct x
      | |- reports_llm_failure _ (match ?x with _ => _ end) => destruct x
      end ].

Lemma reports_flow_block request agent_id email :
  reports_llm_failure llm (block request agent_id email).
Proof. unfold flow_block. cbv zeta. repeat reports_step. Qed.

Lemma reports_flow_try request agent_id :
  reports_llm_failure llm (flow_try py_int llm ai_interviewer request agent_id).
Proof.
  unfold flow_try. apply reports_bind; [apply reports_get_order|intros order].
  unfold with_email.
  destruct (user request); [|destruct (negb _); [apply reports_ret|]];
    (apply reports_bind;
     [apply reports_atomic, reports_flow_block
     |intros [ai_text session]; apply reports_ret]).
Qed.

(** An exception that leaves the advance view's [try] body has undone every
    write of the turn. *)
Lemma flow_try_rollback request agent_id w e w' :
  flow_try py_int llm ai_interviewer request agent_id w = (inl e, w') ->
  db w' = db w.
Proof.
  unfold flow_try, bind, get_order, with_email, atomic.
  destruct (orders (db w) !! agent_id) as [order|]; [|by intros [= _ <-]].
  destruct (user request) as [email|].
  - destruct (block _ _ _ _) as [[e1|[ai_text session]] w1]; simpl;
      [by intros [= _ <-]|done].
  - destruct (negb (truthy (data_email request))); [done|].
    destruct (block _ _ _ _) as [[e1|[ai_text session]] w1]; simpl;
      [by intros [= _ <-]|done].
Qed.

(** C9: when an invocation of the language model fails during an advance
    turn, the turn is answered with the error response for that failure and
    the store is left exactly as it was before the call: every write made
    earlier in the turn is undone. *)
Theorem flow_llm_failure_rolls_back request agent_id w e :
  llm_failed llm w
    (snd (interview_session_flow py_int llm ai_interviewer request agent_id w)) e ->
  fst (interview_session_flow py_int llm ai_interviewer request agent_id w) = error_response e /\
  db (snd (interview_session_flow py_int llm ai_interviewer request agent_id w)) = db w.
Proof.
  unfold interview_session_flow, handle.
  destruct (reports_flow_try request agent_id w) as [_ Hfail].
  destruct (flow_try _ _ _ _ _ w) as [[e1|resp] w1] eqn:Hrun; simpl in *;
    intros Hllm; apply Hfail in Hllm; [|done].
  injection Hllm as ->. split; [done|].
  by apply (flow_try_rollback request agent_id w e w1).
Qed.

(** *** The frame of a turn on [last_question] *)

Lemma app_singleton_neq {A} (l : list A) (x : A) : l ++ [x] <> l.
Proof.
  intros H. apply (f_equal length) in H. rewrite length_app in H.
  simpl in H. lia.
Qed.

Ltac split_block :=
  repeat match goal with
    | |- context [match llm ?i ?p with _ => _ end] =>
        destruct (llm i p); simpl
    | |- context [if String.eqb ?x ?y then _ else _] =>
        destruct (String.eqb x y); simpl
    | |- context [match ai_interviewer ?t ?s ?d with _ => _ end] =>
        destruct (ai_interviewer t s d) as [?|[[[? ?] ?] ?]]; simpl
    | |- context [if final ?s then _ else _] =>
        destruct (final s); simpl
    | |- context [match score ?s with _ => _ end] =>
        destruct (score s); simpl
    end.

Lemma block_keeps_last_question request agent_id email w r w' :
  block request agent_id email w = (r, w') ->
  engine_calls w' = engine_calls w ->
  forall key,
    last_question <$> sessions (db w') !! key =
    last_question <$> sessions (db w) !! key.
Proof.
  unfold flow_block, bind, get_applicant, get_session.
  destruct (applicants (db w) !! email) as [a|]; [|by intros [= _ <-]].
  destruct (sessions (db w) !! (agent_id, email)) as [s|] eqn:Hs;
    [|by intros [= _ <-]].
  simpl.
  destruct (n_questions s =? 0), (truthy (last_question s)),
    (truthy (last_answer s)), (ready s); simpl;
    unfold llm_text, call_engine, int_of_score; simpl; split_block;
    intros [= _ <-]; simpl; intros Hcalls key;
    try (by apply app_singleton_neq in Hcalls);
    try done;
    (destruct (decide ((agent_id, email) = key)) as [<-|Hne];
     [rewrite !lookup_insert_eq, Hs
     |rewrite !lookup_insert_ne by done]; done).
Qed.

(** C10: an advance turn that does not delegate to the engine (stages 1, 2
    and 4, and the "no" arm of stage 3) writes [last_question] on no session
    row: every row still holds the text an earlier call stored there. *)
Theorem flow_keeps_last_question request agent_id w :
  engine_calls
    (snd (interview_session_flow py_int llm ai_interviewer request agent_id w))
    = engine_calls w ->
  forall key,
    last_question <$>
      sessions
        (db (snd (interview_session_flow py_int llm ai_interviewer request agent_id w)))
        !! key =
    last_question <$> sessions (db w) !! key.
Proof.
  unfold interview_session_flow, handle, flow_try, bind, get_order, with_email,
    atomic.
  destruct (orders (db w) !! agent_id) as [order|]; [|done].
  destruct (user request) as [email|];
    [|destruct (negb (truthy (data_email request))); [done|]];
    (destruct (block _ _ _ _) as [[e|[ai_text session]] w'] eqn:Hblock; simpl;
     [done|by apply (block_keeps_last_question _ _ _ _ _ _ Hblock)]).
Qed.

(** *** Turns on a session that is already final *)

(** A turn that leaves the engine alone answers with the flags of the
    session it found. *)
Lemma block_keeps_flags request agent_id email w s ai_text session w' :
  sessions (db w) !! (agent_id, email) = Some s ->
  block request agent_id email w = (inr (ai_text, session), w') ->
  engine_calls w' = engine_calls w ->
  final session = final s /\
  score session = score s /\
  confidence session = confidence s.
Proof.
  intros Hs. unfold flow_block, bind, get_applicant, get_session.
  destruct (applicants (db w) !! email) as [a|]; [|done].
  rewrite Hs. simpl.
  destruct (n_questions s =? 0), (truthy (last_question s)),
    (truthy (last_answer s)), (ready s); simpl;
    unfold llm_text, call_engine, int_of_score; simpl; split_block;
    intros Heq; unfold ret, raise in Heq; simplify_eq;
    intros Hcalls; simpl in Hcalls;
    try (by apply app_singleton_neq in Hcalls); done.
Qed.

(** C4 (as amended): the view has no guard on [final]; a turn on a session
    that is already final is dispatched by stage like any other.
    - Whenever the turn does not reach the engine and is answered 200, the
      response carries the stored flags: [final = True] and the stored
      [score] and [confidence].
    - With questions counted and [ready = False] (the state every start
      request leaves) the engine is not invoked and the store is unchanged;
      [ai_text] is the model's "ready to continue" message, not the closing
      message.
    - With questions counted and [ready = True] the engine is invoked once
      more; the response carries [final], [score] and [confidence] as the
      engine leaves them on the session, with the closing message built from
      that score whenever the session is still final. *)
Theorem flow_final_session request agent_id email w order a s :
  orders (db w) !! agent_id = Some order ->
  identity request = Some email ->
  applicants (db w) !! email = Some a ->
  sessions (db w) !! (agent_id, email) = Some s ->
  final s = true ->
  let text := data_text request in
  (engine_calls
     (snd (interview_session_flow py_int llm ai_interviewer request agent_id w))
     = engine_calls w ->
   status
     (fst (interview_session_flow py_int llm ai_interviewer request agent_id w))
     = 200 ->
   exists ai_text,
     fst (interview_session_flow py_int llm ai_interviewer request agent_id w)
       = mkResponse 200 (Turn ai_text true (score s) (confidence s))) /\
  (n_questions s <> 0 ->
   ready s = false ->
   let prompt := previous_context_prompt (last_question s) in
   let w' := mkWorld (db w) (prompts w ++ [prompt]) (engine_calls w) in
   interview_session_flow py_int llm ai_interviewer request agent_id w =
     match llm (length (prompts w)) prompt with
     | inr r =>
         (mkResponse 200 (Turn (payload r) true (score s) (confidence s)), w')
     | inl e => (error_response e, w')
     end) /\
  (n_questions s <> 0 ->
   ready s = true ->
   let calls := engine_calls w ++ [(text, s)] in
   interview_session_flow py_int llm ai_interviewer request agent_id w =
     match ai_interviewer text s (db w) with
     | inr (_, ai_text, s', d') =>
         if final s' then
           match score s' with
           | Some x =>
               (mkResponse 200
                  (Turn (closing_text (py_int x)) true (Some x) (confidence s')),
                mkWorld d' (prompts w) calls)
           | None =>
               (mkResponse 500 (ErrorOf TypeError),
                mkWorld (db w) (prompts w) calls)
           end
         else
           (mkResponse 200 (Turn ai_text false (score s') (confidence s')),
            mkWorld d' (prompts w) calls)
     | inl e => (error_response e, mkWorld (db w) (prompts w) calls)
     end).
Proof.
  intros Horder Hid Ha Hs Hfinal text.
  split; [|split].
  - rewrite (flow_resolved _ _ _ _ _ Horder Hid).
    destruct (block request agent_id email w) as [[e|[ai_text session]] w']
      eqn:Hblock; simpl.
    + intros _ Hst. by apply status_error_response in Hst.
    + intros Hcalls _. exists ai_text.
      destruct (block_keeps_flags _ _ _ _ _ _ _ _ Hs Hblock Hcalls)
        as (-> & -> & ->).
      by rewrite Hfinal.
  - intros Hn Hready prompt w'.
    destruct (view request agent_id w) as [resp w1] eqn:Hflow.
    enter_block Hflow Horder Hid Ha Hs.
    apply Z.eqb_neq in Hn. rewrite Hn, Hready in Hflow. simpl in Hflow.
    step_llm Hflow. fold prompt in Hflow.
    destruct (llm (length (prompts w)) prompt) as [e|r]; simpl in Hflow;
      injection Hflow as <- <-; [done|]. by rewrite Hfinal.
  - intros Hn Hready calls.
    destruct (view request agent_id w) as [resp w1] eqn:Hflow.
    enter_block Hflow Horder Hid Ha Hs.
    apply Z.eqb_neq in Hn. rewrite Hn, Hready in Hflow. simpl in Hflow.
    unfold call_engine in Hflow. simpl in Hflow. fold text calls in Hflow.
    destruct (ai_interviewer text s (db w)) as [e|[[[sc ai_text] s'] d']];
      simpl in Hflow; [by injection Hflow as <- <-|].
    destruct (final s') eqn:Hfin; simpl in Hflow;
      [|rewrite Hfin in Hflow; by injection Hflow as <- <-].
    destruct (score s') as [x|] eqn:Hsc; simpl in Hflow;
      [rewrite Hfin, Hsc in Hflow|]; by injection Hflow as <- <-.
Qed.

End AdvanceSession.

(** ** The advance view on the concrete instance *)

Lemma flow_missing_record_run :
  exists e, (e = ApplicantDoesNotExist \/ e = SessionDoesNotExist) /\
            interview_session_flow Run.int_id Run.no_llm Run.no_engine
              (Run.bob_says "I know Python and SQL") 1 (Run.world_of Run.db0) =
            (mkResponse 500 (ErrorOf e), Run.world_of Run.db0).
Proof.
  apply (flow_missing_record Run.int_id Run.no_llm Run.no_engine
           (Run.bob_says "I know Python and SQL") 1 Run.bob
           (Run.world_of Run.db0) Run.order1);
    [by vm_compute | by vm_compute | left; by vm_compute].
Defined.

Lemma flow_skills_noted_run :
  exists summary a' s',
    Run.model_yes
      (length (prompts (Run.world_with Run.greeted_session)
               ++ [skills_prompt (data_text (Run.bob_says "I know Python and SQL"))]))
      (skills_description_prompt (data_text (Run.bob_says "I know Python and SQL")))
      = inr summary /\
    applicants (db (snd (interview_session_flow Run.int_id Run.model_yes Run.engine
                           (Run.bob_says "I know Python and SQL") 1
                           (Run.world_with Run.greeted_session))))
      !! Run.bob = Some a' /\
    skills a' = Some (payload summary) /\
    sessions (db (snd (interview_session_flow Run.int_id Run.model_yes Run.engine
                         (Run.bob_says "I know Python and SQL") 1
                         (Run.world_with Run.greeted_session))))
      !! (1, Run.bob) = Some s' /\
    last_answer s' = Some (payload summary) /\
    ready s' = false.
Proof.
  apply (flow_skills_noted Run.int_id Run.model_yes Run.engine
           (Run.bob_says "I know Python and SQL") 1 Run.bob
           (Run.world_with Run.greeted_session) Run.order1 (mkApplicant None)
           Run.greeted_session (mkLlmResponse (Some "1") None ""));
    by vm_compute.
Defined.

(** C6, the claim as stated fails: the classifier answers "1" and the summary
    is generated, but the model raises on the readiness message; the turn is
    answered 500, the writes are undone, and neither [applicant.skills] nor
    [session.last_answer] holds the summary. *)
Lemma flow_skills_not_noted_on_failure :
  n_questions Run.greeted_session = 0 /\
  truthy (last_question Run.greeted_session) = true /\
  last_answer Run.greeted_session = None /\
  Run.model_timeout 0%nat (skills_prompt (Some "I know Python and SQL")) =
    inr (mkLlmResponse (Some "1") None "") /\
  payload (mkLlmResponse (Some "1") None "") = "1" /\
  fst (interview_session_flow Run.int_id Run.model_timeout Run.engine
         (Run.bob_says "I know Python and SQL") 1
         (Run.world_with Run.greeted_session)) =
    mkResponse 500 (ErrorOf (ExternalError "timeout")) /\
  skills <$> applicants
               (db (snd (interview_session_flow Run.int_id Run.model_timeout
                           Run.engine (Run.bob_says "I know Python and SQL") 1
                           (Run.world_with Run.greeted_session))))
               !! Run.bob = Some None /\
  last_answer <$> sessions
                    (db (snd (interview_session_flow Run.int_id
                                Run.model_timeout Run.engine
                                (Run.bob_says "I know Python and SQL") 1
                                (Run.world_with Run.greeted_session))))
                    !! (1, Run.bob) = Some None.
Proof. by vm_compute. Qed.

Lemma flow_ready_engine_once_run :
  engine_calls (snd (interview_session_flow Run.int_id Run.model_yes Run.engine
                       (Run.bob_says "I am ready") 1
                       (Run.world_with Run.skilled_session))) =
    [(Some "I am ready", set_ready Run.skilled_session true)].
Proof.
  apply (flow_ready_engine_once Run.int_id Run.model_yes Run.engine
           (Run.bob_says "I am ready") 1 Run.bob
           (Run.world_with Run.skilled_session) Run.order1 (mkApplicant None)
           Run.skilled_session (mkLlmResponse (Some "1") None ""));
    by vm_compute.
Defined.

Lemma flow_classifier_arms_run :
  took_no_arm (Run.world_with Run.greeted_session)
    (snd (interview_session_flow Run.int_id Run.model_no Run.engine
            (Run.bob_says "Hello") 1 (Run.world_with Run.greeted_session)))
    Run.greeted_session (Some "Hello").
Proof.
  apply (flow_classifier_arms Run.int_id Run.model_no Run.engine
           (Run.bob_says "Hello") 1 Run.bob
           (Run.world_with Run.greeted_session) Run.order1 (mkApplicant None)
           Run.greeted_session (mkLlmResponse (Some "0") None ""));
    by vm_compute.
Defined.

(** C1, the claim as stated fails: a classifier that answers with a sentence
    (neither "0" nor "1") sends stage 2 down the "yes" arm, where the skills
    summary is generated and stored, and sends stage 3 to the engine with
    [ready = True]. *)
Lemma flow_verbose_classifier_takes_yes_arm :
  Run.verbose <> "0" /\ Run.verbose <> "1" /\
  Run.model_verbose 0%nat (skills_prompt (Some "I know Python and SQL")) =
    Run.says Run.verbose /\
  took_yes_arm (Run.world_with Run.greeted_session)
    (snd (interview_session_flow Run.int_id Run.model_verbose Run.engine
            (Run.bob_says "I know Python and SQL") 1
            (Run.world_with Run.greeted_session)))
    Run.greeted_session (Some "I know Python and SQL") /\
  ~ took_no_arm (Run.world_with Run.greeted_session)
    (snd (interview_session_flow Run.int_id Run.model_verbose Run.engine
            (Run.bob_says "I know Python and SQL") 1
            (Run.world_with Run.greeted_session)))
    Run.greeted_session (Some "I know Python and SQL") /\
  applicants (db (snd (interview_session_flow Run.int_id Run.model_verbose Run.engine
                         (Run.bob_says "I know Python and SQL") 1
                         (Run.world_with Run.greeted_session))))
    !! Run.bob = Some (mkApplicant (Some Run.summary)) /\
  took_yes_arm (Run.world_with Run.skilled_session)
    (snd (interview_session_flow Run.int_id Run.model_verbose Run.engine
            (Run.bob_says "Maybe later") 1
            (Run.world_with Run.skilled_session)))
    Run.skilled_session (Some "Maybe later") /\
  ~ took_no_arm (Run.world_with Run.skilled_session)
    (snd (interview_session_flow Run.int_id Run.model_verbose Run.engine
            (Run.bob_says "Maybe later") 1
            (Run.world_with Run.skilled_session)))
    Run.skilled_session (Some "Maybe later").
Proof.
  split; [done|]. split; [done|]. split; [done|].
  split; [split; [by eexists|done]|].
  split; [intros [H _]; vm_compute in H; discriminate H|].
  split; [by vm_compute|].
  split; [by vm_compute|].
  intros [H _]; vm_compute in H; discriminate H.
Qed.

Lemma flow_final_session_run :
  interview_session_flow Run.int_id Run.model_continue Run.engine
    (Run.bob_says "Thank you") 1 (Run.world_with Run.final_paused_session) =
    (mkResponse 200 (Turn "Are you ready to continue?" true (Some 50) (Some 1)),
     mkWorld (Run.db_with Run.final_paused_session)
       [previous_context_prompt (Some "Last question")] []) /\
  interview_session_flow Run.int_id Run.no_llm Run.engine
    (Run.bob_says "Thank you") 1 (Run.world_with Run.final_session) =
    (mkResponse 200 (Turn (closing_text 60) true (Some 60) (Some 1)),
     mkWorld
       (mkDB {[ 1 := Run.order1 ]} {[ Run.bob := mkApplicant None ]}
          (<[(1, Run.bob) :=
               mkSession true 6 (Some "Last question")
                 (Some "Knows Python and SQL") true (Some 60) (Some 1)]>
             {[ (1, Run.bob) := Run.final_session ]}))
       [] [(Some "Thank you", Run.final_session)]).
Proof.
  split.
  - destruct (flow_final_session Run.int_id Run.model_continue Run.engine
                (Run.bob_says "Thank you") 1 Run.bob
                (Run.world_with Run.final_paused_session) Run.order1
                (mkApplicant None) Run.final_paused_session)
      as (_ & Hpaused & _); [by vm_compute..|].
    rewrite Hpaused; by vm_compute.
  - destruct (flow_final_session Run.int_id Run.no_llm Run.engine
                (Run.bob_says "Thank you") 1 Run.bob
                (Run.world_with Run.final_session) Run.order1
                (mkApplicant None) Run.final_session)
      as (_ & _ & Hready); [by vm_compute..|].
    rewrite Hready; by vm_compute.
Defined.

(** C4, the claim as stated fails: a turn on a session that is already final
    invokes the engine again, and the response carries the score the engine
    has just set, not the one that was stored; a second turn returns yet
    another score and closing message. *)
Lemma flow_final_session_reinvokes_engine :
  final Run.final_session = true /\
  score Run.final_session = Some 50 /\
  engine_calls (snd (interview_session_flow Run.int_id Run.no_llm Run.engine
                       (Run.bob_says "Thank you") 1
                       (Run.world_with Run.final_session))) =
    [(Some "Thank you", Run.final_session)] /\
  fst (interview_session_flow Run.int_id Run.no_llm Run.engine
         (Run.bob_says "Thank you") 1 (Run.world_with Run.final_session)) =
    mkResponse 200 (Turn (closing_text 60) true (Some 60) (Some 1)) /\
  fst (interview_session_flow Run.int_id Run.no_llm Run.engine
         (Run.bob_says "Thank you") 1
         (snd (interview_session_flow Run.int_id Run.no_llm Run.engine
                 (Run.bob_says "Thank you") 1
                 (Run.world_with Run.final_session)))) =
    mkResponse 200 (Turn (closing_text 70) true (Some 70) (Some 1)).
Proof. by vm_compute. Qed.

Lemma flow_llm_failure_rolls_back_run :
  fst (interview_session_flow Run.int_id Run.model_timeout Run.engine
         (Run.bob_says "I know Python and SQL") 1
         (Run.world_with Run.greeted_session)) =
    error_response (ExternalError "timeout") /\
  db (snd (interview_session_flow Run.int_id Run.model_timeout Run.engine
             (Run.bob_says "I know Python and SQL") 1
             (Run.world_with Run.greeted_session))) =
    db (Run.world_with Run.greeted_session).
Proof.
  apply (flow_llm_failure_rolls_back Run.int_id Run.model_timeout Run.engine
           (Run.bob_says "I know Python and SQL") 1
           (Run.world_with Run.greeted_session)).
  exists 2%nat, readiness_message_prompt.
  split; [simpl; lia|]. split; by vm_compute.
Defined.

Lemma flow_keeps_last_question_run :
  last_question <$>
    sessions (db (snd (interview_session_flow Run.int_id Run.model_continue
                         Run.engine (Run.bob_says "Hello again") 1
                         (Run.world_with Run.paused_session))))
      !! (1, Run.bob) =
  last_question <$>
    sessions (db (Run.world_with Run.paused_session)) !! (1, Run.bob).
Proof.
  apply (flow_keeps_last_question Run.int_id Run.model_continue Run.engine
           (Run.bob_says "Hello again") 1 (Run.world_with Run.paused_session)).
  by vm_compute.
Defined.

(** ** Further properties of the session views *)

Lemma greeting_no_answer_truthy (name : string) :
  truthy (Some (greeting_no_answer name)) = true.
Proof. done. Qed.

Lemma greeting_continue_truthy (name : string) :
  truthy (Some (greeting_continue name)) = true.
Proof. done. Qed.

Section SessionViews.

Context {Number : Type}.
Variable py_int : Number -> Z.
Variable llm : nat -> string -> Exn + LlmResponse.
Variable ai_interviewer :
  option string -> Session Number -> DB Number ->
  Exn + (Number * string * Session Number * DB Number).

Implicit Types (w : World Number) (s : Session Number) (request : Request).

(** X1: on an unknown order both views answer 404 "Order not found",
    whoever asks and whatever the request carries, and leave the store,
    the model and the engine alone. *)
Theorem views_unknown_order request agent_id w :
  orders (db w) !! agent_id = None ->
  interview_session_create request agent_id w =
    (mkResponse 404 (ErrorMsg "Order not found"), w) /\
  interview_session_flow py_int llm ai_interviewer request agent_id w =
    (mkResponse 404 (ErrorMsg "Order not found"), w).
Proof.
  intros Horder.
  unfold interview_session_create, interview_session_flow, flow_try, handle,
    bind, get_order.
  by rewrite Horder.
Qed.

(** X2: an unauthenticated request whose e-mail is absent or the empty text
    is answered 403 "Email is missing" by both views on an existing order;
    nothing is read or written after the order, and the model is not
    consulted. *)
Theorem views_empty_email request agent_id w order :
  orders (db w) !! agent_id = Some order ->
  user request = None ->
  truthy (data_email request) = false ->
  interview_session_create request agent_id w =
    (mkResponse 403 (Detail "Email is missing"), w) /\
  interview_session_flow py_int llm ai_interviewer request agent_id w =
    (mkResponse 403 (Detail "Email is missing"), w).
Proof.
  intros Horder Huser Hemail.
  unfold interview_session_create, interview_session_flow, flow_try, handle,
    bind, get_order.
  rewrite Horder.
  by rewrite !with_email_anonymous.
Qed.

(** X3: for an authenticated caller the e-mail of the request body is
    ignored: both views act on the account's e-mail, so the outcome is the
    same whatever e-mail the body names. *)
Theorem views_authenticated_ignore_body_email request agent_id w account other :
  user request = Some account ->
  interview_session_create request agent_id w =
    interview_session_create
      (mkRequest (Some account) other (data_text request)) agent_id w /\
  interview_session_flow py_int llm ai_interviewer request agent_id w =
    interview_session_flow py_int llm ai_interviewer
      (mkRequest (Some account) other (data_text request)) agent_id w.
Proof.
  intros Huser.
  unfold interview_session_create, interview_session_flow, flow_try, handle,
    bind, with_email, flow_block.
  by rewrite Huser.
Qed.

(** The start view in closed form, once the order and the e-mail are
    resolved: the applicant row is created when missing, and the session row
    ends with [ready = False] and the greeting in [last_question]. *)
Lemma create_resolved request agent_id email w order :
  orders (db w) !! agent_id = Some order ->
  identity request = Some email ->
  interview_session_create request agent_id w =
    let key := (agent_id, email) in
    let people :=
      match applicants (db w) !! email with
      | Some _ => applicants (db w)
      | None => <[email := Applicant_new]> (applicants (db w))
      end in
    let stored g s :=
      (mkResponse 200 (Turn g (final s) (score s) (confidence s)),
       mkWorld
         (mkDB (orders (db w)) people
               (<[key := set_last_question (set_ready s false) (Some g)]>
                  (sessions (db w))))
         (prompts w) (engine_calls w)) in
    match sessions (db w) !! key with
    | None => stored (agent_greeting order) Session_new
    | Some s =>
        match reentry_greeting order s with
        | Some g => stored g s
        | None => (mkResponse 500 (ErrorOf (UnboundLocalError "greeting")), w)
        end
    end.
Proof.
  intros Horder Hid.
  unfold interview_session_create, handle, bind, get_order.
  rewrite Horder, (with_email_identity _ _ _ Hid).
  unfold atomic, bind, get_or_create_applicant, get_or_create_session.
  destruct (applicants (db w) !! email) as [a|]; simpl;
    (destruct (sessions (db w) !! (agent_id, email)) as [s|]; simpl;
     [ change (reentry_greeting order (set_ready s false))
         with (reentry_greeting order s);
       destruct (reentry_greeting order s) as [g|]; simpl;
       [|by rewrite world_eta]
     | ];
     by rewrite !insert_insert_eq).
Qed.

Lemma identity_none request :
  identity request = None ->
  user request = None /\ truthy (data_email request) = false.
Proof.
  unfold identity. destruct (user request); [done|].
  destruct (truthy (data_email request)) eqn:Hemail; [|done].
  by destruct (data_email request).
Qed.

(** The three ways a start request ends. *)
Lemma create_cases request agent_id w :
  interview_session_create request agent_id w =
    (mkResponse 404 (ErrorMsg "Order not found"), w) \/
  interview_session_create request agent_id w =
    (mkResponse 403 (Detail "Email is missing"), w) \/
  exists order email,
    orders (db w) !! agent_id = Some order /\ identity request = Some email.
Proof.
  destruct (orders (db w) !! agent_id) as [order|] eqn:Horder.
  - destruct (identity request) as [email|] eqn:Hid; [by eauto 10|].
    apply identity_none in Hid as [Huser Hemail]. right; left.
    unfold interview_session_create, handle, bind, get_order.
    rewrite Horder. by rewrite with_email_anonymous.
  - left. unfold interview_session_create, handle, bind, get_order.
    by rewrite Horder.
Qed.

(** X4: the start view never touches the progress of an interview: every
    stored session keeps its question count, its answer, its final flag,
    its score and its confidence, every stored applicant keeps its row, and
    the orders are unchanged; this holds for failed calls too. *)
Theorem create_preserves_progress request agent_id w :
  orders (db (snd (interview_session_create request agent_id w))) = orders (db w) /\
  (forall email a,
     applicants (db w) !! email = Some a ->
     applicants (db (snd (interview_session_create request agent_id w))) !! email
       = Some a) /\
  (forall key s,
     sessions (db w) !! key = Some s ->
     exists s',
       sessions (db (snd (interview_session_create request agent_id w))) !! key
         = Some s' /\
       n_questions s' = n_questions s /\
       last_answer s' = last_answer s /\
       final s' = final s /\
       score s' = score s /\
       confidence s' = confidence s).
Proof.
  destruct (create_cases request agent_id w)
    as [-> | [-> | (order & user_email & Horder & Hid)]];
    [by eauto 10..|].
  rewrite (create_resolved _ _ _ _ _ Horder Hid). cbv zeta.
  assert (forall email a (people := match applicants (db w) !! user_email with
                                    | Some _ => applicants (db w)
                                    | None => <[user_email := Applicant_new]>
                                                (applicants (db w))
                                    end),
            applicants (db w) !! email = Some a -> people !! email = Some a)
    as Hpeople.
  { intros email a people Hrow. subst people.
    destruct (applicants (db w) !! user_email) eqn:Ha; [done|].
    rewrite lookup_insert_ne; [done|congruence]. }
  assert (forall g s0 key s,
            sessions (db w) !! (agent_id, user_email) = Some s0 ->
            sessions (db w) !! key = Some s ->
            exists s',
              <[(agent_id, user_email) :=
                  set_last_question (set_ready s0 false) (Some g)]>
                (sessions (db w)) !! key = Some s' /\
              n_questions s' = n_questions s /\
              last_answer s' = last_answer s /\
              final s' = final s /\
              score s' = score s /\
              confidence s' = confidence s) as Hrows.
  { intros g s0 key s Hs0 Hrow.
    destruct (decide ((agent_id, user_email) = key)) as [<-|Hne].
    - rewrite lookup_insert_eq. eexists. split; [done|].
      rewrite Hs0 in Hrow. by simplify_eq.
    - rewrite lookup_insert_ne by done. by eauto 10. }
  destruct (sessions (db w) !! (agent_id, user_email)) as [s0|] eqn:Hs0.
  - destruct (reentry_greeting order s0) as [g|]; simpl; [|by eauto 10].
    split; [done|]. split; [apply Hpeople|]. intros key s. by apply Hrows.
  - simpl. split; [done|]. split; [apply Hpeople|].
    intros key s Hrow. exists s.
    rewrite lookup_insert_ne; [done|congruence].
Qed.

Local Arguments greeting_no_question : simpl never.
Local Arguments greeting_no_answer : simpl never.
Local Arguments greeting_continue : simpl never.
Local Arguments truthy : simpl never.

(** X5: a start request answered 200 leaves a row for the caller in both
    tables; the session row has [ready = False], its [last_question] is the
    very text returned as [ai_text], and the flags returned are the stored
    ones. *)
Theorem create_returns_stored request agent_id email w :
  identity request = Some email ->
  status (fst (interview_session_create request agent_id w)) = 200 ->
  exists g s',
    fst (interview_session_create request agent_id w) =
      mkResponse 200 (Turn g (final s') (score s') (confidence s')) /\
    sessions (db (snd (interview_session_create request agent_id w)))
      !! (agent_id, email) = Some s' /\
    last_question s' = Some g /\
    ready s' = false /\
    is_Some (applicants (db (snd (interview_session_create request agent_id w)))
               !! email).
Proof.
  intros Hid.
  destruct (create_cases request agent_id w)
    as [-> | [-> | (order & email' & Horder & Hid')]]; [done..|].
  assert (email' = email) as -> by congruence.
  rewrite (create_resolved _ _ _ _ _ Horder Hid). cbv zeta.
  assert (is_Some (match applicants (db w) !! email with
                   | Some _ => applicants (db w)
                   | None => <[email := Applicant_new]> (applicants (db w))
                   end !! email)) as Hpeople.
  { destruct (applicants (db w) !! email) eqn:Ha; [by rewrite Ha|].
    by rewrite lookup_insert_eq. }
  destruct (sessions (db w) !! (agent_id, email)) as [s|];
    [destruct (reentry_greeting order s) as [g|]; [|done]|];
    simpl; intros _; eexists _, _;
    (split; [|split; [apply lookup_insert_eq|]]); done.
Qed.

(** X6: the re-entry greeting of a session that exists already. With
    questions counted it is the "continue" text; with none counted, a
    [last_question] set and no [last_answer], it is the "ready to start"
    text. Both name the agent, and the response carries the stored flags. *)
Theorem create_reentry request agent_id email w order s :
  orders (db w) !! agent_id = Some order ->
  identity request = Some email ->
  sessions (db w) !! (agent_id, email) = Some s ->
  n_questions s <> 0 \/
  (truthy (last_question s) = true /\ truthy (last_answer s) = false) ->
  fst (interview_session_create request agent_id w) =
    mkResponse 200
      (Turn (if n_questions s =? 0
             then greeting_no_answer (agent_name order)
             else greeting_continue (agent_name order))
            (final s) (score s) (confidence s)).
Proof.
  intros Horder Hid Hs Hstage.
  rewrite (create_resolved _ _ _ _ _ Horder Hid). cbv zeta. rewrite Hs.
  unfold reentry_greeting.
  destruct (n_questions s =? 0) eqn:Hn; simpl.
  - destruct Hstage as [Hne|[-> ->]]; [by apply Z.eqb_eq in Hn|done].
  - done.
Qed.

(** X7: starting again is idempotent on a session that has been greeted: when
    the stored session has questions counted or a [last_question] set, a second
    start request gives the response of the first and leaves the store the
    first one left. *)
Theorem create_twice request agent_id email w order s :
  orders (db w) !! agent_id = Some order ->
  identity request = Some email ->
  sessions (db w) !! (agent_id, email) = Some s ->
  n_questions s <> 0 \/ truthy (last_question s) = true ->
  interview_session_create request agent_id
    (snd (interview_session_create request agent_id w)) =
  interview_session_create request agent_id w.
Proof.
  intros Horder Hid Hs Hstage.
  rewrite (create_resolved _ _ _ w _ Horder Hid). cbv zeta. rewrite Hs.
  destruct (reentry_greeting order s) as [g|] eqn:Hg; simpl.
  2: { rewrite (create_resolved _ _ _ w _ Horder Hid). cbv zeta.
       by rewrite Hs, Hg. }
  set (people := match applicants (db w) !! email with
                 | Some _ => applicants (db w)
                 | None => <[email := Applicant_new]> (applicants (db w))
                 end).
  assert (exists a, people !! email = Some a) as [a Ha].
  { subst people. destruct (applicants (db w) !! email) eqn:Ha; [by eauto|].
    rewrite lookup_insert_eq. by eauto. }
  rewrite (create_resolved _ _ email _ order); [|done..]. cbv zeta. simpl.
  rewrite Ha, lookup_insert_eq.
  assert (reentry_greeting order
            (set_last_question (set_ready s false) (Some g)) = Some g) as ->.
  { unfold reentry_greeting in *. simpl.
    destruct (n_questions s =? 0) eqn:Hn; simpl in *.
    - destruct Hstage as [Hne|Hq]; [by apply Z.eqb_eq in Hn|].
      rewrite Hq in Hg. simpl in Hg.
      destruct (truthy (last_answer s)); simpl in *; [done|].
      injection Hg as <-. by rewrite greeting_no_answer_truthy.
    - done. }
  by rewrite insert_insert_eq.
Qed.

Local Arguments String.eqb : simpl never.
Local Arguments skills_prompt : simpl never.
Local Arguments missing_skills_prompt : simpl never.
Local Arguments skills_description_prompt : simpl never.
Local Arguments readiness_message_prompt : simpl never.
Local Arguments ready_prompt : simpl never.
Local Arguments user_said_no_prompt : simpl never.
Local Arguments previous_context_prompt : simpl never.
Local Arguments closing_text : simpl never.
Local Arguments error_response : simpl never.
Local Arguments stage1_text : simpl never.

Local Abbreviation advance := (interview_session_flow py_int llm ai_interviewer).

(** The three ways an advance request ends before its atomic block. *)
Lemma flow_cases request agent_id w :
  advance request agent_id w = (mkResponse 404 (ErrorMsg "Order not found"), w) \/
  advance request agent_id w = (mkResponse 403 (Detail "Email is missing"), w) \/
  exists order email,
    orders (db w) !! agent_id = Some order /\ identity request = Some email.
Proof.
  destruct (orders (db w) !! agent_id) as [order|] eqn:Horder.
  - destruct (identity request) as [email|] eqn:Hid; [by eauto 10|].
    apply identity_none in Hid as [Huser Hemail]. right; left.
    unfold interview_session_flow, flow_try, handle, bind, get_order.
    rewrite Horder. by rewrite with_email_anonymous.
  - left. unfold interview_session_flow, flow_try, handle, bind, get_order.
    by rewrite Horder.
Qed.

(** The atomic block of the advance view, with both rows present. *)
Ltac open_block Horder Hid Ha Hs :=
  rewrite (flow_resolved _ _ _ _ _ _ _ _ Horder Hid);
  unfold flow_block, bind, get_applicant, get_session;
  rewrite Ha, Hs; simpl.

(** X8: stage 1. On a session with no question counted and no
    [last_question] (none, or the empty text) the advance view answers the
    fixed request for skills without consulting the model or the engine; the
    only write is [ready = False] on the caller's session. *)
Theorem flow_first_turn request agent_id email w order a s :
  orders (db w) !! agent_id = Some order ->
  identity request = Some email ->
  applicants (db w) !! email = Some a ->
  sessions (db w) !! (agent_id, email) = Some s ->
  n_questions s = 0 ->
  truthy (last_question s) = false ->
  interview_session_flow py_int llm ai_interviewer request agent_id w =
    (mkResponse 200 (Turn stage1_text (final s) (score s) (confidence s)),
     mkWorld
       (mkDB (orders (db w)) (applicants (db w))
             (<[(agent_id, email) := set_ready s false]> (sessions (db w))))
       (prompts w) (engine_calls w)).
Proof.
  intros Horder Hid Ha Hs Hn Hq.
  open_block Horder Hid Ha Hs.
  by rewrite Hn, Hq.
Qed.

(** X9: stage 4. On a session with questions counted and [ready = False] the
    advance view sends one prompt, built from the stored [last_question],
    answers with the model's text, and writes nothing: the store is the one
    it found, and the engine is not invoked. *)
Theorem flow_paused_turn request agent_id email w order a s :
  orders (db w) !! agent_id = Some order ->
  identity request = Some email ->
  applicants (db w) !! email = Some a ->
  sessions (db w) !! (agent_id, email) = Some s ->
  n_questions s <> 0 ->
  ready s = false ->
  let prompt := previous_context_prompt (last_question s) in
  let w' := mkWorld (db w) (prompts w ++ [prompt]) (engine_calls w) in
  interview_session_flow py_int llm ai_interviewer request agent_id w =
    match llm (length (prompts w)) prompt with
    | inr r =>
        (mkResponse 200 (Turn (payload r) (final s) (score s) (confidence s)), w')
    | inl e => (error_response e, w')
    end.
Proof.
  intros Horder Hid Ha Hs Hn Hready prompt w'.
  open_block Horder Hid Ha Hs.
  apply Z.eqb_neq in Hn. rewrite Hn, Hready. simpl.
  unfold llm_text. simpl. fold prompt.
  by destruct (llm (length (prompts w)) prompt).
Qed.

(** X10: stage 3, the "no" arm. When the classifier answers "0" the advance
    view asks the model for the please-be-ready message and writes nothing:
    [ready] stays [False], the store is the one it found, and the engine is
    not invoked. *)
Theorem flow_not_ready_turn request agent_id email w order a s r :
  orders (db w) !! agent_id = Some order ->
  identity request = Some email ->
  applicants (db w) !! email = Some a ->
  sessions (db w) !! (agent_id, email) = Some s ->
  n_questions s = 0 ->
  truthy (last_question s) = true ->
  truthy (last_answer s) = true ->
  ready s = false ->
  llm (length (prompts w)) (ready_prompt (data_text request)) = inr r ->
  payload r = "0" ->
  let text := data_text request in
  let sent := prompts w ++ [ready_prompt text; user_said_no_prompt text] in
  let w' := mkWorld (db w) sent (engine_calls w) in
  interview_session_flow py_int llm ai_interviewer request agent_id w =
    match llm (length (prompts w ++ [ready_prompt text]))
              (user_said_no_prompt text) with
    | inr r2 =>
        (mkResponse 200 (Turn (payload r2) (final s) (score s) (confidence s)), w')
    | inl e => (error_response e, w')
    end.
Proof.
  intros Horder Hid Ha Hs Hn Hq Hans Hready Hllm Hzero text sent w'.
  open_block Horder Hid Ha Hs.
  rewrite Hn, Hq, Hans, Hready. simpl.
  unfold llm_text at 1. simpl. rewrite Hllm, Hzero. simpl.
  unfold llm_text. simpl. fold text. subst w' sent.
  rewrite <- app_assoc. simpl.
  by destruct (llm _ (user_said_no_prompt text)).
Qed.

(** X11: a request that is not answered 200 has changed nothing in the
    store, in either view: the early 403 and 404 answers come before any
    write, and an exception raised later (a missing row, an unassigned
    greeting, a failing model or engine, a score that is [None]) undoes the
    writes of the call. *)
Theorem views_error_store_unchanged request agent_id w :
  (status (fst (interview_session_create request agent_id w)) <> 200 ->
   db (snd (interview_session_create request agent_id w)) = db w) /\
  (status (fst (interview_session_flow py_int llm ai_interviewer
                  request agent_id w)) <> 200 ->
   db (snd (interview_session_flow py_int llm ai_interviewer
              request agent_id w)) = db w).
Proof.
  split.
  - destruct (create_cases request agent_id w)
      as [-> | [-> | (order & email & Horder & Hid)]]; [done..|].
    rewrite (create_resolved _ _ _ _ _ Horder Hid). cbv zeta.
    destruct (sessions (db w) !! (agent_id, email)) as [s|];
      [destruct (reentry_greeting order s)|]; done.
  - destruct (flow_cases request agent_id w)
      as [-> | [-> | (order & email & Horder & Hid)]]; [done..|].
    rewrite (flow_resolved _ _ _ _ _ _ _ _ Horder Hid).
    by destruct (flow_block _ _ _ _ _ _ _) as [[e|[ai_text session]] w'].
Qed.

(** *** The footprint of an advance turn *)

Ltac case_block :=
  repeat match goal with
    | |- context [match llm ?i ?p with _ => _ end] =>
        destruct (llm i p); simpl
    | |- context [if String.eqb ?x ?y then _ else _] =>
        destruct (String.eqb x y); simpl
    | |- context [match ai_interviewer ?t ?s ?d with _ => _ end] =>
        destruct (ai_interviewer t s d) as [?|[[[? ?] ?] ?]]; simpl
    | |- context [if final ?s then _ else _] =>
        destruct (final s); simpl
    | |- context [match score ?s with _ => _ end] =>
        destruct (score s); simpl
    end.

(** What the atomic block sends and, when it leaves the engine alone, what
    it can have written. *)
Lemma block_footprint request agent_id email w r w' :
  flow_block py_int llm ai_interviewer request agent_id email w = (r, w') ->
  (exists sent,
     prompts w' = prompts w ++ sent /\
     (length sent <= 3)%nat /\
     (engine_calls w' = engine_calls w \/
      (length sent <= 1)%nat /\
      exists call, engine_calls w' = engine_calls w ++ [call])) /\
  (engine_calls w' = engine_calls w ->
   orders (db w') = orders (db w) /\
   (forall e, e <> email ->
      applicants (db w') !! e = applicants (db w) !! e) /\
   (forall key, key <> (agent_id, email) ->
      sessions (db w') !! key = sessions (db w) !! key) /\
   (is_Some (applicants (db w') !! email) <->
    is_Some (applicants (db w) !! email)) /\
   (is_Some (sessions (db w') !! (agent_id, email)) <->
    is_Some (sessions (db w) !! (agent_id, email)))).
Proof.
  unfold flow_block, bind, get_applicant, get_session.
  destruct (applicants (db w) !! email) as [a|] eqn:Ha.
  2: { intros [= _ <-]. split; [|intros _; rewrite ?Ha, ?Hs; by repeat split].
       exists []. rewrite app_nil_r. split; [done|]. split; [simpl; lia|by left]. }
  destruct (sessions (db w) !! (agent_id, email)) as [s|] eqn:Hs.
  2: { intros [= _ <-]. split; [|intros _; rewrite ?Ha, ?Hs; by repeat split].
       exists []. rewrite app_nil_r. split; [done|]. split; [simpl; lia|by left]. }
  simpl.
  destruct (n_questions s =? 0), (truthy (last_question s)),
    (truthy (last_answer s)), (ready s); simpl;
    unfold llm_text, call_engine, int_of_score; simpl; case_block;
    intros [= _ <-]; simpl;
    (split;
     [ eexists;
       (split;
        [first [symmetry; apply app_nil_r
               |rewrite <- ?app_assoc; simpl; reflexivity]|]);
       (split; [simpl; lia|]);
       first [by left | right; split; [simpl; lia|by eexists]]
     | intros Hcalls;
       try (by apply app_singleton_neq in Hcalls);
       (split; [done|]);
       (split; [intros other Hne; by rewrite ?lookup_insert_ne by done|]);
       (split; [intros other Hne; by rewrite ?lookup_insert_ne by done|]);
       rewrite ?lookup_insert_eq, ?Ha, ?Hs; split; split; by eauto ]).
Qed.

(** X12: an advance turn sends at most three prompts to the model and
    invokes the engine at most once; a turn that invokes the engine sends at
    most one prompt (the readiness classification). *)
Theorem flow_bounded_calls request agent_id w :
  exists sent,
    prompts (snd (interview_session_flow py_int llm ai_interviewer
                    request agent_id w)) = prompts w ++ sent /\
    (length sent <= 3)%nat /\
    (engine_calls (snd (interview_session_flow py_int llm ai_interviewer
                          request agent_id w)) = engine_calls w \/
     (length sent <= 1)%nat /\
     exists call,
       engine_calls (snd (interview_session_flow py_int llm ai_interviewer
                            request agent_id w)) = engine_calls w ++ [call]).
Proof.
  destruct (flow_cases request agent_id w)
    as [-> | [-> | (order & email & Horder & Hid)]].
  1, 2: exists []; rewrite app_nil_r; split; [done|];
        split; [simpl; lia|by left].
  rewrite (flow_resolved _ _ _ _ _ _ _ _ Horder Hid).
  destruct (flow_block _ _ _ _ _ _ _) as [[e|[ai_text session]] w'] eqn:Hblock;
    by destruct (block_footprint _ _ _ _ _ _ Hblock) as [Hsent _].
Qed.

(** X13: an advance turn that does not delegate to the engine touches only
    the caller's own rows: the orders are unchanged, every applicant row but
    the caller's is unchanged, and so is every session row but the one of
    this order and this caller. *)
Theorem flow_isolation request agent_id w :
  engine_calls (snd (interview_session_flow py_int llm ai_interviewer
                       request agent_id w)) = engine_calls w ->
  orders (db (snd (interview_session_flow py_int llm ai_interviewer
                     request agent_id w))) = orders (db w) /\
  (forall e,
     identity request <> Some e ->
     applicants (db (snd (interview_session_flow py_int llm ai_interviewer
                            request agent_id w))) !! e
       = applicants (db w) !! e) /\
  (forall order_id e,
     order_id <> agent_id \/ identity request <> Some e ->
     sessions (db (snd (interview_session_flow py_int llm ai_interviewer
                          request agent_id w))) !! (order_id, e)
       = sessions (db w) !! (order_id, e)).
Proof.
  destruct (flow_cases request agent_id w)
    as [-> | [-> | (order & email & Horder & Hid)]]; [done..|].
  rewrite (flow_resolved _ _ _ _ _ _ _ _ Horder Hid).
  destruct (flow_block _ _ _ _ _ _ _) as [[e|[ai_text session]] w'] eqn:Hblock;
    simpl; [done|].
  intros Hcalls.
  destruct (block_footprint _ _ _ _ _ _ Hblock) as [_ Hframe].
  destruct (Hframe Hcalls) as (Horders & Hpeople & Hrows & _).
  split; [done|]. split.
  - intros e He. apply Hpeople. congruence.
  - intros order_id e He. apply Hrows. intros [= -> ->]. by destruct He.
Qed.

(** X14: the advance view never creates and never deletes a row: after a
    turn that does not delegate to the engine, the applicants table and the
    sessions table hold rows for exactly the keys they held before. *)
Theorem flow_creates_nothing request agent_id w :
  engine_calls (snd (interview_session_flow py_int llm ai_interviewer
                       request agent_id w)) = engine_calls w ->
  (forall e,
     is_Some (applicants (db (snd (interview_session_flow py_int llm
                                     ai_interviewer request agent_id w))) !! e)
     <-> is_Some (applicants (db w) !! e)) /\
  (forall key,
     is_Some (sessions (db (snd (interview_session_flow py_int llm
                                   ai_interviewer request agent_id w))) !! key)
     <-> is_Some (sessions (db w) !! key)).
Proof.
  destruct (flow_cases request agent_id w)
    as [-> | [-> | (order & email & Horder & Hid)]]; [done..|].
  rewrite (flow_resolved _ _ _ _ _ _ _ _ Horder Hid).
  destruct (flow_block _ _ _ _ _ _ _) as [[e|[ai_text session]] w'] eqn:Hblock;
    simpl; [done|].
  intros Hcalls.
  destruct (block_footprint _ _ _ _ _ _ Hblock) as [_ Hframe].
  destruct (Hframe Hcalls) as (_ & Hpeople & Hrows & Hme & Hmine).
  split.
  - intros e. destruct (decide (e = email)) as [->|Hne]; [done|].
    by rewrite Hpeople.
  - intros key. destruct (decide (key = (agent_id, email))) as [->|Hne]; [done|].
    by rewrite Hrows.
Qed.

(** *** Consecutive requests *)

(** Running the rest of a block whose first steps are known, and reading the
    prompts off the world it ends in. *)
Ltac finish_block :=
  unfold llm_text, call_engine, int_of_score; simpl; case_block; simpl;
  eexists; rewrite <- ?app_assoc; simpl; reflexivity.

(** X15: the first turn after a start. On a session the start view has just
    created, the advance view classifies the applicant's text for skills
    (its first prompt is the skills classification), provided the order's
    configured greeting is not empty; with an empty greeting the session has
    no [last_question] yet, and the turn answers the fixed request for skills
    without consulting the model. *)
Theorem start_then_advance request request2 agent_id email w order :
  orders (db w) !! agent_id = Some order ->
  identity request = Some email ->
  identity request2 = Some email ->
  sessions (db w) !! (agent_id, email) = None ->
  if truthy (Some (agent_greeting order))
  then exists rest,
         prompts (snd (interview_session_flow py_int llm ai_interviewer
                         request2 agent_id
                         (snd (interview_session_create request agent_id w))))
           = prompts w ++ skills_prompt (data_text request2) :: rest
  else fst (interview_session_flow py_int llm ai_interviewer request2 agent_id
              (snd (interview_session_create request agent_id w)))
         = mkResponse 200
             (Turn stage1_text
                   (final (Session_new (Number := Number)))
                   (score (Session_new (Number := Number)))
                   (confidence (Session_new (Number := Number)))) /\
       prompts (snd (interview_session_flow py_int llm ai_interviewer
                       request2 agent_id
                       (snd (interview_session_create request agent_id w))))
         = prompts w.
Proof.
  intros Horder Hid Hid2 Hnew.
  rewrite (create_resolved _ _ _ _ _ Horder Hid). cbv zeta. rewrite Hnew. simpl.
  set (people := match applicants (db w) !! email with
                 | Some _ => applicants (db w)
                 | None => <[email := Applicant_new]> (applicants (db w))
                 end).
  assert (exists a, people !! email = Some a) as [a Ha].
  { subst people. destruct (applicants (db w) !! email) eqn:Ha; [by eauto|].
    rewrite lookup_insert_eq. by eauto. }
  rewrite (flow_resolved _ _ _ _ _ email _ order); [|done..].
  unfold flow_block, bind, get_applicant, get_session. simpl.
  rewrite Ha. simpl. rewrite lookup_insert_eq. simpl.
  destruct (truthy (Some (agent_greeting order))); simpl; [|done].
  finish_block.
Qed.

(** X16: the turn after the skills were noted. When a stage-2 turn has
    stored a summary, the next turn classifies the applicant's text for
    readiness; but when the summary the model generated is the empty text,
    [last_answer] counts as unset and the next turn classifies for skills
    again. *)
Theorem skills_then_next_turn request request2 agent_id email w order a s r r1 r2 :
  orders (db w) !! agent_id = Some order ->
  identity request = Some email ->
  identity request2 = Some email ->
  applicants (db w) !! email = Some a ->
  sessions (db w) !! (agent_id, email) = Some s ->
  n_questions s = 0 ->
  truthy (last_question s) = true ->
  truthy (last_answer s) = false ->
  let text := data_text request in
  let sent := [skills_prompt text; skills_description_prompt text;
               readiness_message_prompt] in
  llm (length (prompts w)) (skills_prompt text) = inr r ->
  payload r <> "0" ->
  llm (length (prompts w ++ [skills_prompt text]))
      (skills_description_prompt text) = inr r1 ->
  llm (length ((prompts w ++ [skills_prompt text])
               ++ [skills_description_prompt text]))
      readiness_message_prompt = inr r2 ->
  exists rest,
    prompts (snd (interview_session_flow py_int llm ai_interviewer
                    request2 agent_id
                    (snd (interview_session_flow py_int llm ai_interviewer
                            request agent_id w))))
      = prompts w ++ sent
        ++ (if truthy (Some (payload r1))
            then ready_prompt (data_text request2)
            else skills_prompt (data_text request2)) :: rest.
Proof.
  intros Horder Hid Hid2 Ha Hs Hn Hq Hans text sent Hllm Hyes Hllm1 Hllm2.
  apply String.eqb_neq in Hyes.
  rewrite (flow_resolved _ _ _ request _ email w order); [|done..].
  unfold flow_block at 1, bind, get_applicant, get_session.
  rewrite Ha, Hs. simpl. rewrite Hn, Hq, Hans. simpl.
  unfold llm_text at 1. simpl. fold text. rewrite Hllm, Hyes. simpl.
  unfold llm_text at 1. simpl. rewrite Hllm1. simpl.
  unfold llm_text at 1. simpl. rewrite Hllm2. simpl.
  rewrite (flow_resolved _ _ _ _ _ email _ order); [|done..].
  unfold flow_block, bind, get_applicant, get_session. simpl.
  rewrite lookup_insert_eq. simpl. rewrite lookup_insert_eq. simpl.
  rewrite Hn, Hq. simpl.
  subst sent.
  destruct (truthy (Some (payload r1))); simpl; finish_block.
Qed.

End SessionViews.

(** ** The file views *)

Lemma append_nil (b : string) : "" +:+ b = b.
Proof. reflexivity. Qed.

Lemma append_cons (x : ascii) (a b : string) :
  String x a +:+ b = String x (a +:+ b).
Proof. reflexivity. Qed.

Lemma append_assoc (a b c : string) : (a +:+ b) +:+ c = a +:+ (b +:+ c).
Proof.
  induction a as [|x a IH]; [done|]. rewrite !append_cons. by f_equal.
Qed.

Lemma append_cancel (a b c : string) : a +:+ b = a +:+ c -> b = c.
Proof.
  induction a as [|x a IH]; [done|]. rewrite !append_cons.
  intros [= H]. by apply IH.
Qed.

Lemma ends_with_sep_append (a b : string) :
  b <> "" -> ends_with_sep (a +:+ b) = ends_with_sep b.
Proof.
  intros Hb. induction a as [|x a IH]; [done|].
  rewrite append_cons. simpl.
  destruct (a +:+ b) eqn:Hab; [|done].
  destruct a; [by rewrite append_nil in Hab|by rewrite append_cons in Hab].
Qed.

Lemma append_nonempty (a b : string) : b <> "" -> String.eqb (a +:+ b) "" = false.
Proof.
  intros Hb. destruct a; [by apply String.eqb_neq|]. by rewrite append_cons.
Qed.

Local Arguments Ascii.eqb : simpl never.

(** The decimal rendering of an integer: its characters are digits or the
    sign, and it determines the integer. *)
Lemma string_of_uint_free (c : ascii) (d : Decimal.uint) :
  (c <> "0" /\ c <> "1" /\ c <> "2" /\ c <> "3" /\ c <> "4" /\
   c <> "5" /\ c <> "6" /\ c <> "7" /\ c <> "8" /\ c <> "9")%char ->
  free_of c (NilEmpty.string_of_uint d) = true.
Proof.
  intros Hc. induction d; simpl; [done|..];
    rewrite IHd, andb_true_r; apply negb_true_iff, Ascii.eqb_neq;
    intros Heq; rewrite <- Heq in Hc; intuition congruence.
Qed.

Lemma str_of_int_free (c : ascii) (n : Z) :
  (c <> "0" /\ c <> "1" /\ c <> "2" /\ c <> "3" /\ c <> "4" /\
   c <> "5" /\ c <> "6" /\ c <> "7" /\ c <> "8" /\ c <> "9" /\
   c <> "-")%char ->
  free_of c (str_of_int n) = true.
Proof.
  intros Hc. unfold str_of_int, NilZero.string_of_int, NilZero.string_of_uint.
  assert (forall d, free_of c (match d with
                               | Decimal.Nil => "0"
                               | _ => NilEmpty.string_of_uint d
                               end) = true) as Huint.
  { intros d.
    assert (free_of c (NilEmpty.string_of_uint d) = true) as Hd
      by (apply string_of_uint_free; intuition congruence).
    destruct d; [|done..]. simpl. rewrite andb_true_r.
    apply negb_true_iff, Ascii.eqb_neq. intros Heq. rewrite <- Heq in Hc. intuition congruence. }
  destruct (Z.to_int n) as [d|d]; [apply Huint|].
  simpl. rewrite Huint, andb_true_r.
  apply negb_true_iff, Ascii.eqb_neq. intros Heq. rewrite <- Heq in Hc. intuition congruence.
Qed.

Lemma str_of_int_inj (n m : Z) : str_of_int n = str_of_int m -> n = m.
Proof.
  unfold str_of_int. intros Heq. apply DecimalZ.to_int_inj.
  assert (forall z, NilZero.int_of_string (NilZero.string_of_int (Z.to_int z))
                    = Some (Z.to_int z)) as Hparse.
  { intros z. apply NilZero.isi; destruct z; simpl; try done;
      intros [= H]; by apply DecimalPos.Unsigned.to_uint_nonnil in H. }
  pose proof (Hparse n) as Hn. rewrite Heq, Hparse in Hn. by injection Hn.
Qed.

(** A text free of [c] followed by [c]: where it ends is determined. *)
Lemma free_of_split (c : ascii) (s1 s2 rest1 rest2 : string) :
  free_of c s1 = true -> free_of c s2 = true ->
  s1 +:+ String c rest1 = s2 +:+ String c rest2 ->
  s1 = s2 /\ rest1 = rest2.
Proof.
  revert s2. induction s1 as [|x s1 IH]; intros [|y s2]; simpl;
    rewrite ?append_nil, ?append_cons.
  - by intros _ _ [= ->].
  - intros _ Hy [= <- _]. by rewrite Ascii.eqb_refl in Hy.
  - intros Hx _ [= -> _]. by rewrite Ascii.eqb_refl in Hx.
  - intros [_ H1]%andb_true_iff [_ H2]%andb_true_iff [= -> Heq].
    destruct (IH s2 H1 H2 Heq) as [-> ->]. done.
Qed.

Lemma stored_name_head (order_id : Z) (filename : string) :
  starts_with_sep (stored_name order_id filename) = false.
Proof.
  unfold stored_name.
  pose proof (str_of_int_free "/" order_id) as Hfree.
  destruct (str_of_int order_id) as [|x s]; [done|].
  rewrite append_cons. simpl. simpl in Hfree.
  apply negb_true_iff. eapply proj1, andb_true_iff, Hfree. by repeat split.
Qed.

Lemma stored_name_inj (n m : Z) (f g : string) :
  stored_name n f = stored_name m g -> n = m /\ f = g.
Proof.
  unfold stored_name. intros Heq.
  apply (free_of_split "_") in Heq as [Hn [= ->]];
    [|by apply str_of_int_free; repeat split..].
  split; [by apply str_of_int_inj|done].
Qed.

Section FileAccess.

Variable MEDIA_ROOT : string.
Variable path_exists : string -> bool.
Variable open_rb : string -> Exn + string.
Variable customer_user : gmap Z Z.

Lemma join_step_folder (folder : string) :
  folder <> "" ->
  starts_with_sep folder = false ->
  exists glue, join_step MEDIA_ROOT folder = MEDIA_ROOT +:+ glue +:+ folder.
Proof.
  intros Hne Hhead. unfold join_step. rewrite Hhead.
  destruct (String.eqb MEDIA_ROOT "" || ends_with_sep MEDIA_ROOT);
    [by exists ""|by exists "/"].
Qed.

Lemma file_path_shape (folder : string) (order_id : Z) (filename : string) :
  folder <> "" ->
  starts_with_sep folder = false ->
  ends_with_sep folder = false ->
  file_path MEDIA_ROOT folder order_id filename =
    join_step MEDIA_ROOT folder +:+ "/" +:+ stored_name order_id filename.
Proof.
  intros Hne Hhead Htail.
  unfold file_path, os_path_join. simpl.
  destruct (join_step_folder folder Hne Hhead) as [glue Hglue].
  unfold join_step at 1. rewrite stored_name_head, Hglue.
  rewrite <- append_assoc.
  by rewrite append_nonempty, ends_with_sep_append, Htail.
Qed.

(** X17: the path a file view opens is [MEDIA_ROOT] joined with its folder,
    then "/", the order id, "__" and the file name. A file name that starts
    with "/" cannot make [os.path.join] drop the media folder, because the
    order id comes first in the last component. *)
Theorem file_path_confined (order_id : Z) (filename : string) :
  file_path MEDIA_ROOT "files" order_id filename =
    join_step MEDIA_ROOT "files" +:+ "/" +:+ str_of_int order_id +:+ "__"
      +:+ filename /\
  file_path MEDIA_ROOT "avatars" order_id filename =
    join_step MEDIA_ROOT "avatars" +:+ "/" +:+ str_of_int order_id +:+ "__"
      +:+ filename.
Proof. split; by apply file_path_shape. Qed.

(** X18: a user who is not the user of the order's customer (or an order
    that does not exist) is answered 403 by both file views, whatever the file
    name and whether or not the file exists: the file system is not
    consulted. *)
Theorem file_views_forbidden (user_id order_id : Z) (filename : string) :
  customer_user !! order_id <> Some user_id ->
  SecureFileAccessView_get MEDIA_ROOT path_exists open_rb customer_user
    user_id order_id filename
    = Json 403 "You don't have permission to access this file" /\
  SecureAvatarAccessView_get MEDIA_ROOT path_exists open_rb customer_user
    user_id order_id filename
    = Json 403 "You don't have permission to access this file".
Proof.
  intros Hother.
  unfold SecureFileAccessView_get, SecureAvatarAccessView_get, secure_get.
  destruct (customer_user !! order_id) as [owner|]; [|done].
  destruct (Z.eqb_spec owner user_id) as [->|]; done.
Qed.

(** X19: whenever a file view streams a content, the caller is the user of
    the order's customer, and the content is what [open] returned for the
    path of that order and file name in the view's own folder, a path that
    exists. *)
Theorem file_views_stream_sound (user_id order_id : Z) (filename content : string) :
  (SecureFileAccessView_get MEDIA_ROOT path_exists open_rb customer_user
     user_id order_id filename = Stream content ->
   customer_user !! order_id = Some user_id /\
   path_exists (file_path MEDIA_ROOT "files" order_id filename) = true /\
   open_rb (file_path MEDIA_ROOT "files" order_id filename) = inr content) /\
  (SecureAvatarAccessView_get MEDIA_ROOT path_exists open_rb customer_user
     user_id order_id filename = Stream content ->
   customer_user !! order_id = Some user_id /\
   path_exists (file_path MEDIA_ROOT "avatars" order_id filename) = true /\
   open_rb (file_path MEDIA_ROOT "avatars" order_id filename) = inr content).
Proof.
  unfold SecureFileAccessView_get, SecureAvatarAccessView_get, secure_get.
  destruct (customer_user !! order_id) as [owner|]; [|done].
  destruct (Z.eqb_spec owner user_id) as [->|]; [|done].
  split.
  - destruct (path_exists (file_path MEDIA_ROOT "files" order_id filename));
      simpl; [|done].
    destruct (open_rb (file_path MEDIA_ROOT "files" order_id filename));
      [done|]. by intros [= ->].
  - destruct (path_exists (file_path MEDIA_ROOT "avatars" order_id filename));
      simpl; [|done].
    destruct (open_rb (file_path MEDIA_ROOT "avatars" order_id filename));
      [done|]. by intros [= ->].
Qed.

(** X20: the two file views never open the same path: no order id and file
    name given to the knowledge-file view lead to a path that the avatar view
    opens for any order id and file name. *)
Theorem file_views_disjoint (order_id order_id' : Z) (filename filename' : string) :
  file_path MEDIA_ROOT "files" order_id filename <>
  file_path MEDIA_ROOT "avatars" order_id' filename'.
Proof.
  rewrite !file_path_shape by done.
  unfold join_step. simpl.
  destruct (String.eqb MEDIA_ROOT "" || ends_with_sep MEDIA_ROOT);
    rewrite !append_assoc; intros Heq; apply append_cancel in Heq;
    discriminate Heq.
Qed.

(** X21: within a view, the path string determines the order id and the
    file name: two requests that differ in the order id or in the file name
    are never given the same path string. This is about the text handed to
    [os.path.exists] and [open], not about how a file system resolves it. *)
Theorem file_path_injective (order_id order_id' : Z) (filename filename' : string) :
  order_id <> order_id' \/ filename <> filename' ->
  file_path MEDIA_ROOT "files" order_id filename <>
    file_path MEDIA_ROOT "files" order_id' filename' /\
  file_path MEDIA_ROOT "avatars" order_id filename <>
    file_path MEDIA_ROOT "avatars" order_id' filename'.
Proof.
  intros Hdiff.
  split; rewrite !file_path_shape by done; intros Heq;
    apply append_cancel in Heq; rewrite !append_cons, !append_nil in Heq;
    injection Heq as Heq; apply stored_name_inj in Heq as [-> ->];
    by destruct Hdiff.
Qed.

End FileAccess.

(** ** The further properties on the concrete instances *)

Lemma views_unknown_order_run :
  interview_session_create Run.bob_starts 2 (Run.world_of Run.db0) =
    (mkResponse 404 (ErrorMsg "Order not found"), Run.world_of Run.db0) /\
  interview_session_flow Run.int_id Run.model_yes Run.engine
    Run.bob_starts 2 (Run.world_of Run.db0) =
    (mkResponse 404 (ErrorMsg "Order not found"), Run.world_of Run.db0).
Proof.
  apply (views_unknown_order Run.int_id Run.model_yes Run.engine
           Run.bob_starts 2 (Run.world_of Run.db0)).
  by vm_compute.
Defined.

Lemma views_empty_email_run :
  interview_session_create (Run.anon (Some "") (Some "Hello")) 1
    (Run.world_of Run.db0) =
    (mkResponse 403 (Detail "Email is missing"), Run.world_of Run.db0) /\
  interview_session_flow Run.int_id Run.model_yes Run.engine
    (Run.anon (Some "") (Some "Hello")) 1 (Run.world_of Run.db0) =
    (mkResponse 403 (Detail "Email is missing"), Run.world_of Run.db0).
Proof.
  apply (views_empty_email Run.int_id Run.model_yes Run.engine
           (Run.anon (Some "") (Some "Hello")) 1 (Run.world_of Run.db0)
           Run.order1); by vm_compute.
Defined.

Lemma views_authenticated_ignore_body_email_run :
  interview_session_create
    (mkRequest (Some Run.bob) (Some "eve@x.org") (Some "Hello")) 1
    (Run.world_with Run.greeted_session) =
  interview_session_create
    (mkRequest (Some Run.bob) None (Some "Hello")) 1
    (Run.world_with Run.greeted_session) /\
  interview_session_flow Run.int_id Run.model_yes Run.engine
    (mkRequest (Some Run.bob) (Some "eve@x.org") (Some "Hello")) 1
    (Run.world_with Run.greeted_session) =
  interview_session_flow Run.int_id Run.model_yes Run.engine
    (mkRequest (Some Run.bob) None (Some "Hello")) 1
    (Run.world_with Run.greeted_session).
Proof.
  apply (views_authenticated_ignore_body_email Run.int_id Run.model_yes
           Run.engine
           (mkRequest (Some Run.bob) (Some "eve@x.org") (Some "Hello")) 1
           (Run.world_with Run.greeted_session) Run.bob None).
  done.
Defined.

Lemma create_returns_stored_run :
  exists g s',
    fst (interview_session_create Run.bob_starts 1 (Run.world_of Run.db0)) =
      mkResponse 200 (Turn g (final s') (score s') (confidence s')) /\
    sessions (db (snd (interview_session_create Run.bob_starts 1
                         (Run.world_of Run.db0))))
      !! (1, Run.bob) = Some s' /\
    last_question s' = Some g /\
    ready s' = false /\
    is_Some (applicants (db (snd (interview_session_create Run.bob_starts 1
                                    (Run.world_of Run.db0))))
               !! Run.bob).
Proof.
  apply (create_returns_stored Run.bob_starts 1 Run.bob (Run.world_of Run.db0));
    by vm_compute.
Defined.

Lemma create_reentry_run :
  fst (interview_session_create Run.bob_starts 1
         (Run.world_with Run.paused_session)) =
    mkResponse 200
      (Turn (greeting_continue "Ann") false None None).
Proof.
  apply (create_reentry Run.bob_starts 1 Run.bob
           (Run.world_with Run.paused_session) Run.order1 Run.paused_session);
    [by vm_compute..|left; by vm_compute].
Defined.

Lemma create_twice_run :
  interview_session_create Run.bob_starts 1
    (snd (interview_session_create Run.bob_starts 1
            (Run.world_with Run.greeted_session))) =
  interview_session_create Run.bob_starts 1 (Run.world_with Run.greeted_session).
Proof.
  apply (create_twice Run.bob_starts 1 Run.bob
           (Run.world_with Run.greeted_session) Run.order1 Run.greeted_session);
    [by vm_compute..|right; by vm_compute].
Defined.

Lemma flow_first_turn_run :
  fst (interview_session_flow Run.int_id Run.no_llm Run.no_engine
         (Run.bob_says "Hello") 1 (Run.world_with Run.fresh_session)) =
    mkResponse 200 (Turn stage1_text false None None).
Proof.
  rewrite (flow_first_turn Run.int_id Run.no_llm Run.no_engine
             (Run.bob_says "Hello") 1 Run.bob
             (Run.world_with Run.fresh_session) Run.order1 (mkApplicant None)
             Run.fresh_session); by vm_compute.
Defined.

Lemma flow_paused_turn_run :
  interview_session_flow Run.int_id Run.model_continue Run.no_engine
    (Run.bob_says "Hello") 1 (Run.world_with Run.paused_session) =
    (mkResponse 200 (Turn "Are you ready to continue?" false None None),
     mkWorld (Run.db_with Run.paused_session)
       [previous_context_prompt (Some "Next question")] []).
Proof.
  rewrite (flow_paused_turn Run.int_id Run.model_continue Run.no_engine
             (Run.bob_says "Hello") 1 Run.bob
             (Run.world_with Run.paused_session) Run.order1 (mkApplicant None)
             Run.paused_session); by vm_compute.
Defined.

Lemma flow_not_ready_turn_run :
  db (snd (interview_session_flow Run.int_id Run.model_no Run.no_engine
             (Run.bob_says "Not yet") 1 (Run.world_with Run.skilled_session))) =
    Run.db_with Run.skilled_session.
Proof.
  rewrite (flow_not_ready_turn Run.int_id Run.model_no Run.no_engine
             (Run.bob_says "Not yet") 1 Run.bob
             (Run.world_with Run.skilled_session) Run.order1 (mkApplicant None)
             Run.skilled_session (mkLlmResponse (Some "0") None ""));
    by vm_compute.
Defined.

Lemma views_error_store_unchanged_run :
  db (snd (interview_session_flow Run.int_id Run.model_timeout Run.engine
             (Run.bob_says "I know Python and SQL") 1
             (Run.world_with Run.greeted_session))) =
    db (Run.world_with Run.greeted_session).
Proof.
  apply (views_error_store_unchanged Run.int_id Run.model_timeout Run.engine
           (Run.bob_says "I know Python and SQL") 1
           (Run.world_with Run.greeted_session)).
  by vm_compute.
Defined.

Lemma flow_isolation_run :
  orders (db (snd (interview_session_flow Run.int_id Run.model_yes Run.engine
                     (Run.bob_says "I know Python and SQL") 1
                     (Run.world_with Run.greeted_session)))) =
    orders (db (Run.world_with Run.greeted_session)).
Proof.
  apply (flow_isolation Run.int_id Run.model_yes Run.engine
           (Run.bob_says "I know Python and SQL") 1
           (Run.world_with Run.greeted_session)).
  by vm_compute.
Defined.

Lemma flow_creates_nothing_run :
  is_Some (applicants (db (snd (interview_session_flow Run.int_id Run.model_yes
                                  Run.engine (Run.bob_says "Hello") 1
                                  (Run.world_of Run.db0)))) !! Run.bob)
  <-> is_Some (applicants (db (Run.world_of Run.db0)) !! Run.bob).
Proof.
  apply (flow_creates_nothing Run.int_id Run.model_yes Run.engine
           (Run.bob_says "Hello") 1 (Run.world_of Run.db0)).
  by vm_compute.
Defined.

Lemma start_then_advance_run :
  exists rest,
    prompts (snd (interview_session_flow Run.int_id Run.model_yes Run.engine
                    (Run.bob_says "I know Python and SQL") 1
                    (snd (interview_session_create Run.bob_starts 1
                            (Run.world_of Run.db0)))))
      = prompts (Run.world_of Run.db0)
        ++ skills_prompt (Some "I know Python and SQL") :: rest.
Proof.
  apply (start_then_advance Run.int_id Run.model_yes Run.engine
           Run.bob_starts (Run.bob_says "I know Python and SQL") 1 Run.bob
           (Run.world_of Run.db0) Run.order1); by vm_compute.
Defined.

Lemma skills_then_next_turn_run :
  exists rest,
    prompts (snd (interview_session_flow Run.int_id Run.model_yes Run.engine
                    (Run.bob_says "I am ready") 1
                    (snd (interview_session_flow Run.int_id Run.model_yes
                            Run.engine (Run.bob_says "I know Python and SQL") 1
                            (Run.world_with Run.greeted_session)))))
      = prompts (Run.world_with Run.greeted_session)
        ++ [skills_prompt (Some "I know Python and SQL");
            skills_description_prompt (Some "I know Python and SQL");
            readiness_message_prompt]
        ++ ready_prompt (Some "I am ready") :: rest.
Proof.
  apply (skills_then_next_turn Run.int_id Run.model_yes Run.engine
           (Run.bob_says "I know Python and SQL") (Run.bob_says "I am ready")
           1 Run.bob (Run.world_with Run.greeted_session) Run.order1
           (mkApplicant None) Run.greeted_session
           (mkLlmResponse (Some "1") None "")
           (mkLlmResponse (Some Run.summary) None "")
           (mkLlmResponse (Some Run.noted) None "")); by vm_compute.
Defined.

Lemma file_views_forbidden_run :
  SecureFileAccessView_get RunFiles.root RunFiles.disk_exists RunFiles.disk_open
    RunFiles.owners 8 1 "cv.pdf"
    = Json 403 "You don't have permission to access this file" /\
  SecureAvatarAccessView_get RunFiles.root RunFiles.disk_exists
    RunFiles.disk_open RunFiles.owners 8 1 "cv.pdf"
    = Json 403 "You don't have permission to access this file".
Proof.
  apply (file_views_forbidden RunFiles.root RunFiles.disk_exists
           RunFiles.disk_open RunFiles.owners 8 1 "cv.pdf").
  by vm_compute.
Defined.

Lemma file_views_stream_sound_run :
  RunFiles.owners !! 1 = Some 7 /\
  RunFiles.disk_exists (file_path RunFiles.root "files" 1 "cv.pdf") = true /\
  RunFiles.disk_open (file_path RunFiles.root "files" 1 "cv.pdf") = inr "%PDF".
Proof.
  apply (file_views_stream_sound RunFiles.root RunFiles.disk_exists
           RunFiles.disk_open RunFiles.owners 7 1 "cv.pdf" "%PDF").
  by vm_compute.
Defined.

Lemma file_path_injective_run :
  file_path RunFiles.root "files" 1 "2__cv.pdf" <>
    file_path RunFiles.root "files" 12 "cv.pdf" /\
  file_path RunFiles.root "avatars" 1 "2__cv.pdf" <>
    file_path RunFiles.root "avatars" 12 "cv.pdf".
Proof.
  apply (file_path_injective RunFiles.root 1 12 "2__cv.pdf" "cv.pdf").
  left. done.
Defined.
